(** * Mirror sync: the reconciliation logic of [scripts/sync_mirror.py]

    A shallow embedding of the script that mirrors the open pull requests of
    an upstream repository into a fork, and the properties of its
    reconciliation logic.

    Conventions of the embedding.
    - A pull request as returned by [gh pr list --json ...] is a record with
      one field per requested JSON key.  A key the script reads with
      [d.get(k)] or [d.get(k, default)] is a [jfield]: absent, JSON [null], or
      a value.  A key read with [d[k]] is a plain field.
    - Python [int] is [Z]; [str] is [string]; a [set] of strings is a
      [gset string]; the [dict] indexed by head branch is an association list
      that keeps Python's insertion order.
    - An external command ([subprocess.run]) is answered by a [world], a
      function of the commands issued so far; the commands issued are
      recorded in a history.  Exceptions are explicit results.
    - [print] and [time.sleep] have no effect on the results and are left
      out. *)

From Stdlib Require Import Ascii String ZArith.
From stdpp Require Import base strings pretty list gmap.

Open Scope Z_scope.
Open Scope string_scope.
Open Scope list_scope.

(** ** Python values *)

(** A key of a JSON object read through [dict.get]. *)
Inductive jfield (A : Type) : Type :=
  | Absent
  | Null
  | Val (a : A).
Arguments Absent {A}.
Arguments Null {A}.
Arguments Val {A} a.

(** [d.get(k)]: [None] when the key is absent or holds [null]. *)
Definition dict_get {A} (f : jfield A) : option A :=
  match f with
  | Absent => None
  | Null => None
  | Val a => Some a
  end.

(** [d.get(k, default)]: the default only when the key is absent; a key that
    holds [null] gives [None]. *)
Definition dict_get_default {A} (f : jfield A) (default : A) : option A :=
  match f with
  | Absent => Some default
  | Null => None
  | Val a => Some a
  end.

(** [x or <empty string>] on an optional string: [None] and the empty string
    are falsy. *)
Definition or_empty (x : option string) : string :=
  match x with
  | None => EmptyString
  | Some EmptyString => EmptyString
  | Some s => s
  end.

(** Truthiness of an optional boolean ([None] and [False] are falsy). *)
Definition truthy (x : option bool) : bool :=
  match x with
  | Some true => true
  | _ => false
  end.

(** [str(n)] and [f"{n}"] for an [int]: decimal digits, [-] for negatives. *)
Definition str_int (n : Z) : string := pretty n.

(** [f"{x}"] for an optional string: [None] prints as the word None. *)
Definition str_opt (x : option string) : string :=
  match x with
  | None => "None"
  | Some s => s
  end.

Definition LF : string := String "010"%char EmptyString.

(** Characters for which [str.isspace] holds, among the ASCII ones. *)
Definition isspace (c : ascii) : bool :=
  let n := nat_of_ascii c in
  ((9 <=? n)%nat && (n <=? 13)%nat) || ((28 <=? n)%nat && (n <=? 32)%nat).

Fixpoint lstrip (s : string) : string :=
  match s with
  | EmptyString => EmptyString
  | String c s' => if isspace c then lstrip s' else s
  end.

Fixpoint rstrip (s : string) : string :=
  match s with
  | EmptyString => EmptyString
  | String c s' =>
      match rstrip s' with
      | EmptyString => if isspace c then EmptyString else String c EmptyString
      | r => String c r
      end
  end.

(** [s.strip()] *)
Definition strip (s : string) : string := rstrip (lstrip s).

(** ** Data model *)

Record Label := { name : string }.

(** An upstream pull request: the keys of
    [number,title,baseRefName,headRefName,headRefOid,body,author,labels,isDraft]. *)
Record UpstreamPR := {
  number : Z;
  title : string;
  baseRefName : string;
  headRefName : string;
  headRefOid : string;
  body : jfield string;
  author_login : string;
  labels : jfield (list Label);
  isDraft : jfield bool
}.

(** A pull request of the fork: the keys of
    [number,title,headRefName,headRefOid,body,labels,isDraft,id]. *)
Record MirrorPR := {
  m_number : Z;
  m_title : jfield string;
  m_headRefName : string;
  m_headRefOid : jfield string;
  m_body : jfield string;
  m_labels : jfield (list Label);
  m_isDraft : jfield bool;
  m_id : jfield string
}.

Definition UPSTREAM_REPO : string := "facebook/react".
Definition FORK_REPO : string := "greptileai/react-mirror".

(** ** Branch Namer *)

(** [sum(1 for p in all_prs if p["headRefName"] == head_ref)] *)
Definition count_head (head_ref : string) (all_prs : list UpstreamPR) : nat :=
  length (filter (λ p, headRefName p = head_ref) all_prs).

Definition get_branch_name (pr : UpstreamPR) (all_prs : list UpstreamPR) : string :=
  let head_ref := headRefName pr in
  let count := count_head head_ref all_prs in
  if decide (1 < count)%nat
  then head_ref +:+ "-" +:+ str_int (number pr)
  else head_ref.

(** ** External commands *)

(** The command lines the script runs, one constructor per argument vector.
    The repository arguments ([--repo FORK_REPO], the remotes [origin] and
    [upstream]) are constants of the script.  A set of labels joined with
    commas is kept as the set: Python iterates a [set] in no fixed order. *)
Inductive command :=
  (* git ls-remote --heads origin <branch> *)
  | GitLsRemoteHeads (branch : string)
  (* git fetch upstream <base_ref>:<base_ref> *)
  | GitFetchBase (base_ref : string)
  (* git fetch upstream pull/<pr_num>/head:<branch> [--force] *)
  | GitFetchPull (pr_num : Z) (branch : string) (force : bool)
  (* git push origin <branch> [--force] *)
  | GitPush (branch : string) (force : bool)
  (* gh pr edit <n> --repo FORK_REPO --title <title> --body <body> *)
  | GhPrEdit (fork_pr_num : Z) (new_title new_body : string)
  (* gh pr edit <n> --repo FORK_REPO --add-label <labels> *)
  | GhPrAddLabel (fork_pr_num : Z) (to_add : gset string)
  (* gh pr edit <n> --repo FORK_REPO --remove-label <labels> *)
  | GhPrRemoveLabel (fork_pr_num : Z) (to_remove : gset string)
  (* gh pr ready <n> --repo FORK_REPO *)
  | GhPrReady (fork_pr_num : Z)
  (* gh api graphql -f query=mutation { convertPullRequestToDraft ... <id> ... } *)
  | GhConvertToDraft (pr_node_id : string)
  (* gh pr create --repo FORK_REPO --head <h> --base <b> --title <t> --body <body>
     [--label <l1,l2,...>] [--draft] *)
  | GhPrCreate (head base new_title new_body : string)
               (label_arg : option string) (draft : bool)
  (* gh pr close <n> --repo FORK_REPO --delete-branch --comment <fixed text> *)
  | GhPrClose (pr_num : Z).

(** What [subprocess.run] observes: the process ran and exited with a return
    code and a standard output, or it could not be started. *)
Inductive outcome :=
  | Exited (returncode : Z) (stdout : string)
  | NotStarted.

Definition history := list command.

(** The outside world answers a command as a function of all the commands
    issued before it. *)
Definition world := history → command → outcome.

Inductive exn :=
  | CalledProcessError
  | OSError
  | TypeError.

Inductive result (A : Type) : Type :=
  | Return (a : A)
  | Raise (e : exn).
Arguments Return {A} a.
Arguments Raise {A} e.

(** A computation reads the world, extends the history and returns or raises. *)
Definition M (A : Type) : Type := world → history → result A * history.

Global Instance M_ret : MRet M := λ A a w h, (Return a, h).

Global Instance M_bind : MBind M := λ A B f m w h,
  match m w h with
  | (Return a, h') => f a w h'
  | (Raise e, h') => (Raise e, h')
  end.

Definition raise {A} (e : exn) : M A := λ w h, (Raise e, h).

(** [try: m except: handler] (also [except Exception as e]). *)
Definition try_except {A} (m : M A) (handler : exn → M A) : M A := λ w h,
  match m w h with
  | (Return a, h') => (Return a, h')
  | (Raise e, h') => handler e w h'
  end.

Definition run {A} (m : M A) (w : world) : result A * history := m w [].

(** [run_cmd(cmd, capture, check)]: a non-zero return code raises only
    under [check]; without it the standard output is returned all the same. *)
Definition run_cmd (cmd : command) (capture check : bool) : M (option string) :=
  λ w h,
    match w h cmd with
    | NotStarted => (Raise OSError, h ++ [cmd])
    | Exited returncode stdout =>
        if check && bool_decide (returncode ≠ 0)
        then (Raise CalledProcessError, h ++ [cmd])
        else (Return (if capture then Some (strip stdout) else None), h ++ [cmd])
    end.

Definition run_gh (args : command) (check : bool) : M (option string) :=
  run_cmd args true check.

(** ** Thin wrappers *)

Definition branch_exists_on_origin (branch : string) : M bool :=
  result ← run_cmd (GitLsRemoteHeads branch) true false;
  mret (match result with
        | None => false
        | Some r =>
            match r with
            | EmptyString => false
            | _ => match strip r with EmptyString => false | _ => true end
            end
        end).

Definition ensure_base_branch_exists (base_ref : string) : M bool :=
  present ← branch_exists_on_origin base_ref;
  if (present : bool) then mret true
  else
    try_except
      (run_cmd (GitFetchBase base_ref) true true;;
       run_cmd (GitPush base_ref false) true true;;
       mret true)
      (λ _, mret false).

(** [get_label_names]: iterating the [null] of a [labels] key raises. *)
Definition get_label_names (labels : jfield (list Label)) : M (list string) :=
  match dict_get_default labels [] with
  | None => raise TypeError
  | Some ls => mret (map name ls)
  end.

Definition build_pr_body (pr_num : Z) (author : string) (body : string) : string :=
  "**Mirror of [" +:+ UPSTREAM_REPO +:+ "#" +:+ str_int pr_num
    +:+ "](https://github.com/" +:+ UPSTREAM_REPO +:+ "/pull/" +:+ str_int pr_num
    +:+ ")**" +:+ LF
    +:+ "**Original author:** " +:+ author +:+ " " +:+ LF
    +:+ LF
    +:+ "---" +:+ LF
    +:+ LF
    +:+ body.

Definition mark_pr_ready (fork_pr_num : Z) : M bool :=
  try_except (run_gh (GhPrReady fork_pr_num) true;; mret true) (λ _, mret false).

Definition convert_pr_to_draft (pr_node_id : string) : M bool :=
  try_except (run_gh (GhConvertToDraft pr_node_id) true;; mret true)
             (λ _, mret false).

(** ** Label sync *)

(** [to_add = upstream_set - fork_set] *)
Definition labels_to_add (upstream_labels fork_labels : list string) : gset string :=
  let upstream_set : gset string := list_to_set upstream_labels in
  let fork_set : gset string := list_to_set fork_labels in
  upstream_set ∖ fork_set.

(** [to_remove = fork_set - upstream_set] *)
Definition labels_to_remove (upstream_labels fork_labels : list string) : gset string :=
  let upstream_set : gset string := list_to_set upstream_labels in
  let fork_set : gset string := list_to_set fork_labels in
  fork_set ∖ upstream_set.

Definition sync_labels (fork_pr_num : Z) (upstream_labels fork_labels : list string)
  : M unit :=
  let to_add := labels_to_add upstream_labels fork_labels in
  (if bool_decide (to_add ≠ ∅)
   then run_gh (GhPrAddLabel fork_pr_num to_add) false;; mret ()
   else mret ());;
  let to_remove := labels_to_remove upstream_labels fork_labels in
  if bool_decide (to_remove ≠ ∅)
  then run_gh (GhPrRemoveLabel fork_pr_num to_remove) false;; mret ()
  else mret ().

Definition update_pr_metadata (fork_pr_num : Z) (new_title new_body : string)
    (upstream_labels fork_labels : list string)
    (is_draft fork_is_draft : option bool) (pr_node_id : option string) : M bool :=
  try_except
    (run_gh (GhPrEdit fork_pr_num new_title new_body) true;;
     sync_labels fork_pr_num upstream_labels fork_labels;;
     (if truthy is_draft && negb (truthy fork_is_draft)
      then convert_pr_to_draft (str_opt pr_node_id);; mret ()
      else if negb (truthy is_draft) && truthy fork_is_draft
      then mark_pr_ready fork_pr_num;; mret ()
      else mret ());;
     mret true)
    (λ _, mret false).

(** ** Diff Engine and per-PR processing *)

Inductive status := Created | Updated | Unchanged | Failed.

(** The Python [dict] of fork PRs, in insertion order, keys unique. *)
Abbreviation pydict V := (list (string * V)).

Fixpoint dict_lookup {V} (k : string) (d : pydict V) : option V :=
  match d with
  | [] => None
  | (k', v) :: d' => if decide (k' = k) then Some v else dict_lookup k d'
  end.

(** [d[k] = v]: an existing key keeps its place and takes the new value. *)
Fixpoint dict_set {V} (k : string) (v : V) (d : pydict V) : pydict V :=
  match d with
  | [] => [(k, v)]
  | (k', v') :: d' =>
      if decide (k' = k) then (k', v) :: d' else (k', v') :: dict_set k v d'
  end.

(** [get_fork_prs], from the parsed answer of [gh pr list] on the fork:
    [{pr["headRefName"]: pr for pr in prs}]. *)
Definition get_fork_prs (prs : list MirrorPR) : pydict MirrorPR :=
  fold_left (λ d pr, dict_set (m_headRefName pr) pr d) prs [].

(** The test [metadata_changed] of [create_or_update_pr]. *)
Definition metadata_changed (new_title expected_body : string)
    (upstream_labels : list string) (is_draft : option bool)
    (fork_title fork_body : option string) (fork_labels : list string)
    (fork_is_draft : option bool) : bool :=
  bool_decide (fork_title ≠ Some new_title)
  || bool_decide (fork_body ≠ Some expected_body)
  || bool_decide (list_to_set (C := gset string) fork_labels
                  ≠ list_to_set upstream_labels)
  || bool_decide (fork_is_draft ≠ is_draft).

(** [create_or_update_pr].  A fork PR always carries its [number] key, so
    the test [if existing:] holds exactly when the branch is a key of
    [fork_prs]. *)
Definition create_or_update_pr (pr : UpstreamPR) (branch_name : string)
    (fork_prs : pydict MirrorPR) : M status :=
  let pr_num := number pr in
  let base := baseRefName pr in
  let body := or_empty (dict_get (body pr)) in
  let author := author_login pr in
  let upstream_sha := headRefOid pr in
  upstream_labels ← get_label_names (labels pr);
  let is_draft := dict_get_default (isDraft pr) false in
  let expected_body := build_pr_body pr_num author body in
  match dict_lookup branch_name fork_prs with
  | Some existing =>
      let fork_pr_num := m_number existing in
      let fork_sha := dict_get_default (m_headRefOid existing) EmptyString in
      let fork_title := dict_get_default (m_title existing) EmptyString in
      let fork_body := dict_get_default (m_body existing) EmptyString in
      fork_labels ← get_label_names (m_labels existing);
      let fork_is_draft := dict_get_default (m_isDraft existing) false in
      let fork_node_id := dict_get_default (m_id existing) EmptyString in
      branch_step ←
        (if bool_decide (fork_sha ≠ Some upstream_sha)
         then
           try_except
             (run_cmd (GitFetchPull pr_num branch_name true) true true;;
              run_cmd (GitPush branch_name true) true true;;
              mret (inr true))
             (λ _, mret (inl Failed))
         else mret (inr false));
      match branch_step with
      | inl early_return => mret early_return
      | inr branch_updated =>
          let changed :=
            metadata_changed (title pr) expected_body upstream_labels is_draft
                             fork_title fork_body fork_labels fork_is_draft in
          (if changed
           then update_pr_metadata fork_pr_num (title pr) expected_body
                  upstream_labels fork_labels is_draft fork_is_draft fork_node_id;;
                mret ()
           else mret ());;
          mret (if (branch_updated : bool) || changed then Updated else Unchanged)
      end
  | None =>
      base_ok ← ensure_base_branch_exists base;
      if negb base_ok then mret Failed
      else
        branch_ok ←
          try_except
            (run_cmd (GitFetchPull pr_num branch_name false) true true;;
             run_cmd (GitPush branch_name false) true true;;
             mret true)
            (λ _, mret false);
        if negb branch_ok then mret Failed
        else
          try_except
            (run_gh (GhPrCreate branch_name base (title pr) expected_body
                       (match upstream_labels with
                        | [] => None
                        | _ => Some (String.concat "," upstream_labels)
                        end)
                       (truthy is_draft)) true;;
             mret Created)
            (λ _, mret Failed)
  end.

(** ** Stale sweep *)

(** The loop of [close_stale_prs] over [fork_prs.items()]; [closed] is the
    running count. *)
Fixpoint close_stale_loop (upstream_branches : gset string)
    (items : pydict MirrorPR) (closed : Z) : M Z :=
  match items with
  | [] => mret closed
  | (branch_name, pr) :: rest =>
      if bool_decide (branch_name ∉ upstream_branches)
      then
        closed' ← try_except
                    (run_gh (GhPrClose (m_number pr)) false;; mret (closed + 1))
                    (λ _, mret closed);
        close_stale_loop upstream_branches rest closed'
      else close_stale_loop upstream_branches rest closed
  end.

Definition close_stale_prs (upstream_branches : gset string)
    (fork_prs : pydict MirrorPR) : M Z :=
  close_stale_loop upstream_branches fork_prs 0.

(** ** Reconciler *)

(** [sorted(upstream_prs, key=lambda x: x["number"])]: a stable sort. *)
Fixpoint insert_by_number (x : UpstreamPR) (l : list UpstreamPR) : list UpstreamPR :=
  match l with
  | [] => [x]
  | y :: l' =>
      if bool_decide (number x ≤ number y)%Z then x :: y :: l'
      else y :: insert_by_number x l'
  end.

Fixpoint sorted_by_number (l : list UpstreamPR) : list UpstreamPR :=
  match l with
  | [] => []
  | x :: l' => insert_by_number x (sorted_by_number l')
  end.

(** The variables of [sync_prs] that the loop updates. *)
Record loop_state := {
  upstream_branches : gset string;
  created : Z;
  updated : Z;
  unchanged : Z;
  failed : Z
}.

(** [upstream_branches.add(branch_name)] *)
Definition add_branch (st : loop_state) (branch_name : string) : loop_state :=
  {| upstream_branches := {[ branch_name ]} ∪ upstream_branches st;
     created := created st; updated := updated st;
     unchanged := unchanged st; failed := failed st |}.

(** The [if result == ...] chain that updates the counters. *)
Definition tally (st : loop_state) (r : status) : loop_state :=
  match r with
  | Created =>
      {| upstream_branches := upstream_branches st;
         created := created st + 1; updated := updated st;
         unchanged := unchanged st; failed := failed st |}
  | Updated =>
      {| upstream_branches := upstream_branches st;
         created := created st; updated := updated st + 1;
         unchanged := unchanged st; failed := failed st |}
  | Unchanged =>
      {| upstream_branches := upstream_branches st;
         created := created st; updated := updated st;
         unchanged := unchanged st + 1; failed := failed st |}
  | Failed =>
      {| upstream_branches := upstream_branches st;
         created := created st; updated := updated st;
         unchanged := unchanged st; failed := failed st + 1 |}
  end.

(** The body of [for pr in upstream_prs_sorted]. *)
Fixpoint process_prs (upstream_prs : list UpstreamPR) (fork_prs : pydict MirrorPR)
    (todo : list UpstreamPR) (st : loop_state) : M loop_state :=
  match todo with
  | [] => mret st
  | pr :: rest =>
      let branch_name := get_branch_name pr upstream_prs in
      let st := add_branch st branch_name in
      r ← create_or_update_pr pr branch_name fork_prs;
      process_prs upstream_prs fork_prs rest (tally st r)
  end.

(** The counts that [sync_prs] prints as its summary. *)
Record summary := {
  s_created : Z;
  s_updated : Z;
  s_unchanged : Z;
  s_closed : Z;
  s_failed : Z
}.

Definition initial_state : loop_state :=
  {| upstream_branches := ∅; created := 0; updated := 0; unchanged := 0; failed := 0 |}.

(** [sync_prs] after its two fetches: the summary it prints. *)
Definition sync_prs_summary (upstream_prs : list UpstreamPR)
    (fork_prs : pydict MirrorPR) : M summary :=
  let upstream_prs_sorted := sorted_by_number upstream_prs in
  st ← process_prs upstream_prs fork_prs upstream_prs_sorted initial_state;
  closed ← close_stale_prs (upstream_branches st) fork_prs;
  mret {| s_created := created st; s_updated := updated st;
          s_unchanged := unchanged st; s_closed := closed; s_failed := failed st |}.

(** [sync_prs] after its two fetches: [return failed == 0]. *)
Definition sync_prs (upstream_prs : list UpstreamPR) (fork_prs : pydict MirrorPR)
  : M bool :=
  s ← sync_prs_summary upstream_prs fork_prs;
  mret (bool_decide (s_failed s = 0)).

(** [main]: the exit code handed to [sys.exit]. *)
Definition main (upstream_prs : list UpstreamPR) (fork_prs : pydict MirrorPR) : M Z :=
  success ← sync_prs upstream_prs fork_prs;
  mret (if (success : bool) then 0 else 1).

(** * Vocabulary of the properties *)

(** ** Branch names *)

(** More than one pull request of the list has head branch [h]. *)
Definition shares_head (all_prs : list UpstreamPR) (h : string) : Prop :=
  ∃ (i j : nat) p q, i ≠ j ∧ all_prs !! i = Some p ∧ all_prs !! j = Some q
                ∧ headRefName p = h ∧ headRefName q = h.

(** The head branch [h] occurs exactly once in the list. *)
Definition head_once (all_prs : list UpstreamPR) (h : string) : Prop :=
  ∃ (i : nat) p, all_prs !! i = Some p ∧ headRefName p = h
    ∧ ∀ (j : nat) q, all_prs !! j = Some q → headRefName q = h → j = i.

(** The branch names of a run, in the order of the list. *)
Definition branch_names (upstream_prs : list UpstreamPR) : list string :=
  map (λ pr, get_branch_name pr upstream_prs) upstream_prs.

(** The set of branch names computed from the upstream list. *)
Definition branch_name_set (upstream_prs : list UpstreamPR) : gset string :=
  list_to_set (branch_names upstream_prs).

(** ** Sample data *)

Module Sample.

Definition upstream (n : Z) (head sha new_title : string) (b : jfield string)
    (ls : list string) (draft : bool) : UpstreamPR :=
  {| number := n; title := new_title; baseRefName := "main";
     headRefName := head; headRefOid := sha; body := b;
     author_login := "alice"; labels := Val (map Build_Label ls);
     isDraft := Val draft |}.

Definition mirror (n : Z) (head sha t b : string) (ls : list string)
    (draft : bool) : MirrorPR :=
  {| m_number := n; m_title := Val t; m_headRefName := head;
     m_headRefOid := Val sha; m_body := Val b;
     m_labels := Val (map Build_Label ls); m_isDraft := Val draft;
     m_id := Val "PR_node" |}.

(** Every command exits with code 0 and prints nothing. *)
Definition all_succeed : world := λ _ _, Exited 0 EmptyString.

(** Every command exits with code 1. *)
Definition all_fail : world := λ _ _, Exited 1 EmptyString.

(** No command can be started. *)
Definition none_start : world := λ _ _, NotStarted.

Definition pr42 : UpstreamPR :=
  upstream 42 "feature-x" "def456" "Add X" (Val "Adds X.") ["bug"] false.
Definition pr43 : UpstreamPR :=
  upstream 43 "feature-x" "0a1b2c" "Add X again" (Val "Second try.") [] false.
Definition pr44 : UpstreamPR :=
  upstream 44 "solo" "777777" "Solo" Null [] true.

(** Three pull requests: two share the head [x], the third one's head is
    the qualified name of the first. *)
Definition pr1 : UpstreamPR := upstream 1 "x" "aaa" "One" Null [] false.
Definition pr2 : UpstreamPR := upstream 2 "x" "bbb" "Two" Null [] false.
Definition pr3 : UpstreamPR := upstream 3 "x-1" "ccc" "Three" Null [] false.

(** The mirror of [pr42], in sync with it. *)
Definition mirror42 : MirrorPR :=
  mirror 7 "feature-x" "def456" "Add X"
         (build_pr_body 42 "alice" "Adds X.") ["bug"] false.

(** The mirror of [pr42] with an old title. *)
Definition mirror42_old_title : MirrorPR :=
  mirror 7 "feature-x" "def456" "Add Y"
         (build_pr_body 42 "alice" "Adds X.") ["bug"] false.

(** The mirror of [pr42] with an old commit and an old title. *)
Definition mirror42_old : MirrorPR :=
  mirror 7 "feature-x" "abc123" "Add Y"
         (build_pr_body 42 "alice" "Adds X.") ["bug"] false.


(** A mirror whose upstream pull request is gone. *)
Definition mirror_gone : MirrorPR :=
  mirror 9 "old-branch" "999999" "Old" "old body" [] false.

End Sample.

(** ** Labels *)

(** The label commands change the labels of the fork PR: the labels of
    [to_add] are added, then those of [to_remove] are removed. *)
Definition apply_label_delta (fork_set to_add to_remove : gset string) : gset string :=
  (fork_set ∪ to_add) ∖ to_remove.

(** The label commands of a label sync: one per non-empty delta. *)
Definition label_commands (fork_pr_num : Z) (upstream_labels fork_labels : list string)
  : list command :=
  (if bool_decide (labels_to_add upstream_labels fork_labels ≠ ∅)
   then [GhPrAddLabel fork_pr_num (labels_to_add upstream_labels fork_labels)]
   else [])
  ++ (if bool_decide (labels_to_remove upstream_labels fork_labels ≠ ∅)
      then [GhPrRemoveLabel fork_pr_num (labels_to_remove upstream_labels fork_labels)]
      else []).

(** ** Worlds *)

(** Every command can be started (it may still exit with an error code). *)
Definition starts (w : world) : Prop := ∀ h c, w h c ≠ NotStarted.

(** The command [c], issued after [h], exits with code 0. *)
Definition succeeds (w : world) (h : history) (c : command) : bool :=
  match w h c with
  | Exited 0 _ => true
  | _ => false
  end.

(** ** The expected mirror body *)

Definition upstream_link (pr_num : Z) : string :=
  "https://github.com/" +:+ UPSTREAM_REPO +:+ "/pull/" +:+ str_int pr_num.

(** The first line of the template: the number and the link. *)
Definition mirror_line (pr_num : Z) : string :=
  "**Mirror of [" +:+ UPSTREAM_REPO +:+ "#" +:+ str_int pr_num
    +:+ "](" +:+ upstream_link pr_num +:+ ")**".

(** The separator line and the empty line below it. *)
Definition separator : string := "---" +:+ LF +:+ LF.

(** The body that [create_or_update_pr] expects on the mirror of [pr]. *)
Definition expected_body (pr : UpstreamPR) : string :=
  build_pr_body (number pr) (author_login pr) (or_empty (dict_get (body pr))).

(** ** A mirror in sync with its upstream pull request *)

(** The set of label names of a [labels] key, when it holds a list. *)
Definition label_set (f : jfield (list Label)) : option (gset string) :=
  (λ ls, list_to_set (map name ls)) <$> dict_get_default f [].

Definition same_tip (pr : UpstreamPR) (m : MirrorPR) : Prop :=
  dict_get_default (m_headRefOid m) EmptyString = Some (headRefOid pr).

Definition same_title (pr : UpstreamPR) (m : MirrorPR) : Prop :=
  dict_get_default (m_title m) EmptyString = Some (title pr).

Definition same_body (pr : UpstreamPR) (m : MirrorPR) : Prop :=
  dict_get_default (m_body m) EmptyString = Some (expected_body pr).

Definition same_labels (pr : UpstreamPR) (m : MirrorPR) : Prop :=
  is_Some (label_set (labels pr)) ∧ label_set (m_labels m) = label_set (labels pr).

Definition same_draft (pr : UpstreamPR) (m : MirrorPR) : Prop :=
  dict_get_default (m_isDraft m) false = dict_get_default (isDraft pr) false.

(** Title, expected body, label set or draft flag differ. *)
Definition metadata_differs (pr : UpstreamPR) (m : MirrorPR) : Prop :=
  ¬ (same_title pr m ∧ same_body pr m
     ∧ label_set (m_labels m) = label_set (labels pr) ∧ same_draft pr m).

Definition in_sync (pr : UpstreamPR) (m : MirrorPR) : Prop :=
  same_tip pr m ∧ same_title pr m ∧ same_body pr m ∧ same_labels pr m
  ∧ same_draft pr m.

(** The pull request with another [body] key. *)
Definition with_body (pr : UpstreamPR) (b : jfield string) : UpstreamPR :=
  {| number := number pr; title := title pr; baseRefName := baseRefName pr;
     headRefName := headRefName pr; headRefOid := headRefOid pr; body := b;
     author_login := author_login pr; labels := labels pr;
     isDraft := isDraft pr |}.

(** The commands of the branch update of [pr] on [branch_name]. *)
Definition fetch_forced (pr : UpstreamPR) (branch_name : string) : command :=
  GitFetchPull (number pr) branch_name true.

Definition push_forced (branch_name : string) : command :=
  GitPush branch_name true.

(** The title and body edit of the metadata update of [m] towards [pr]. *)
Definition edit_command (pr : UpstreamPR) (m : MirrorPR) : command :=
  GhPrEdit (m_number m) (title pr) (expected_body pr).

(** The fork PRs that the sweep selects: those whose key is not among the
    upstream branches, in the order of the index. *)
Definition stale_prs (branches : gset string) (fork_prs : pydict MirrorPR)
  : list MirrorPR :=
  map snd (filter (λ kv, kv.1 ∉ branches) fork_prs).

(** The value of the test [metadata_changed] of [create_or_update_pr] for
    [pr] and its mirror [m], whose label lists are [uls] and [fls]. *)
Definition metadata_test (pr : UpstreamPR) (m : MirrorPR) (uls fls : list Label)
  : bool :=
  metadata_changed (title pr) (expected_body pr) (map name uls)
    (dict_get_default (isDraft pr) false)
    (dict_get_default (m_title m) EmptyString)
    (dict_get_default (m_body m) EmptyString)
    (map name fls)
    (dict_get_default (m_isDraft m) false).

(** The metadata update that [create_or_update_pr] runs for [pr] and [m]. *)
Definition metadata_update (pr : UpstreamPR) (m : MirrorPR) (uls fls : list Label)
  : M bool :=
  update_pr_metadata (m_number m) (title pr) (expected_body pr)
    (map name uls) (map name fls)
    (dict_get_default (isDraft pr) false)
    (dict_get_default (m_isDraft m) false)
    (dict_get_default (m_id m) EmptyString).

(** ** Computations *)

(** A computation only appends to the history. *)
Definition appends {A} (m : M A) : Prop :=
  ∀ w h, ∃ issued, (m w h).2 = h ++ issued.

(** A computation returns: no exception escapes it. *)
Definition returns {A} (m : M A) : Prop :=
  ∀ w h, ∃ a h', m w h = (Return a, h').

(** ** Characters of a string *)

(** Every character of the string satisfies [P]. *)
Fixpoint all_chars (P : ascii → bool) (s : string) : bool :=
  match s with
  | EmptyString => true
  | String c s' => P c && all_chars P s'
  end.

(** The decimal digits [0] to [9]. *)
Definition is_digit (c : ascii) : bool :=
  let n := nat_of_ascii c in (48 <=? n)%nat && (n <=? 57)%nat.

Definition is_dash (c : ascii) : bool := bool_decide (c = "-"%char).

Definition is_bracket (c : ascii) : bool := bool_decide (c = "]"%char).

(** ** Branch names, continued *)

(** The qualified name [{headBranch}-{prNumber}] of a pull request. *)
Definition qualified_name (pr : UpstreamPR) : string :=
  headRefName pr +:+ "-" +:+ str_int (number pr).

(** No pull request with a head of its own has, as head branch, the
    qualified name of a pull request that shares its head. *)
Definition no_cross_collision (all_prs : list UpstreamPR) : Prop :=
  ∀ p q, p ∈ all_prs → q ∈ all_prs →
    shares_head all_prs (headRefName p) → ¬ shares_head all_prs (headRefName q) →
    headRefName q ≠ qualified_name p.

(** ** Order of processing *)

(** The numbers do not decrease along the list. *)
Definition ascending (l : list UpstreamPR) : Prop :=
  ∀ (i j : nat) a b, (i < j)%nat → l !! i = Some a → l !! j = Some b →
    (number a ≤ number b)%Z.

(** The pull requests of number [n], in the order of the list. *)
Definition with_number (n : Z) (l : list UpstreamPR) : list UpstreamPR :=
  filter (λ p, number p = n) l.

(** ** The index, continued *)

(** The fork PRs of head branch [h], in the order of the list. *)
Definition with_head (h : string) (prs : list MirrorPR) : list MirrorPR :=
  filter (λ m, m_headRefName m = h) prs.

(** ** Commands of a computation *)

(** A computation only appends to the history, and every command it
    appends satisfies [P]. *)
Definition issues {A} (P : command → Prop) (m : M A) : Prop :=
  ∀ w h, ∃ issued, (m w h).2 = h ++ issued ∧ Forall P issued.

Definition is_close (c : command) : bool :=
  match c with
  | GhPrClose _ => true
  | _ => false
  end.

(** A fetch or a push with [--force]. *)
Definition is_forced (c : command) : bool :=
  match c with
  | GitFetchPull _ _ true => true
  | GitPush _ true => true
  | _ => false
  end.

(** The listing of [git ls-remote --heads origin <base_ref>] is not empty. *)
Definition branch_listed (w : world) (h : history) (base_ref : string) : bool :=
  match w h (GitLsRemoteHeads base_ref) with
  | Exited _ stdout => bool_decide (strip stdout ≠ EmptyString)
  | NotStarted => false
  end.

(** The draft command of a metadata update, if any. *)
Definition draft_commands (fork_pr_num : Z) (is_draft fork_is_draft : option bool)
    (pr_node_id : option string) : list command :=
  if truthy is_draft && negb (truthy fork_is_draft)
  then [GhConvertToDraft (str_opt pr_node_id)]
  else if negb (truthy is_draft) && truthy fork_is_draft
  then [GhPrReady fork_pr_num]
  else [].

(** The [gh pr create] command of [pr] on [branch_name], with label names
    [names]. *)
Definition create_command (pr : UpstreamPR) (branch_name : string)
    (names : list string) : command :=
  GhPrCreate branch_name (baseRefName pr) (title pr) (expected_body pr)
    (match names with
     | [] => None
     | _ => Some (String.concat "," names)
     end)
    (truthy (dict_get_default (isDraft pr) false)).

(** The pull request with another [labels] key. *)
Definition with_labels (pr : UpstreamPR) (ls : jfield (list Label)) : UpstreamPR :=
  {| number := number pr; title := title pr; baseRefName := baseRefName pr;
     headRefName := headRefName pr; headRefOid := headRefOid pr; body := body pr;
     author_login := author_login pr; labels := ls;
     isDraft := isDraft pr |}.

(** The close commands of a list of fork PRs. *)
Definition close_commands (prs : list MirrorPR) : list command :=
  map (λ m, GhPrClose (m_number m)) prs.

(** A world where the title and body edit exits with code 0 and every
    other command exits with code 1. *)
Definition edit_only : world := λ h c,
  match c with
  | GhPrEdit _ _ _ => Exited 0 EmptyString
  | _ => Exited 1 EmptyString
  end.

(** A second fork PR on the head branch of [Sample.mirror_gone], fetched
    after it. *)
Definition mirror_gone_again : MirrorPR :=
  Sample.mirror 10 "old-branch" "aaaaaa" "Old again" "old body" [] false.

(** The template of the expected mirror body for an empty upstream body:
    it ends with the separator. *)
Definition empty_body_template (pr : UpstreamPR) : string :=
  mirror_line (number pr) +:+ LF +:+ "**Original author:** "
    +:+ author_login pr +:+ " " +:+ LF +:+ LF +:+ separator.

(** * Properties *)

(** ** The command monad *)

Section Monad.

Context {A B : Type}.

Lemma bind_eq (m : M A) (f : A → M B) w h :
  (m ≫= f) w h
  = match m w h with
    | (Return a, h') => f a w h'
    | (Raise e, h') => (Raise e, h')
    end.
Proof. reflexivity. Qed.

Lemma bind_return (m : M A) (f : A → M B) w h a h' :
  m w h = (Return a, h') → (m ≫= f) w h = f a w h'.
Proof. intros E. by rewrite bind_eq, E. Qed.

Lemma bind_raise (m : M A) (f : A → M B) w h e h' :
  m w h = (Raise e, h') → (m ≫= f) w h = (Raise e, h').
Proof. intros E. by rewrite bind_eq, E. Qed.

Lemma try_except_eq (m : M A) (handler : exn → M A) w h :
  try_except m handler w h
  = match m w h with
    | (Return a, h') => (Return a, h')
    | (Raise e, h') => handler e w h'
    end.
Proof. reflexivity. Qed.

End Monad.

Section Appends.

Context {A B : Type}.

Lemma appends_ret (a : A) : appends (mret a).
Proof. intros w h. exists []. by rewrite app_nil_r. Qed.

Lemma appends_raise (e : exn) : appends (raise (A := A) e).
Proof. intros w h. exists []. by rewrite app_nil_r. Qed.

Lemma appends_bind (m : M A) (f : A → M B) :
  appends m → (∀ a, appends (f a)) → appends (m ≫= f).
Proof.
  intros Hm Hf w h. rewrite bind_eq. destruct (Hm w h) as [i1 E1].
  destruct (m w h) as [[a|e] h1]; simpl in E1; subst h1.
  - destruct (Hf a w (h ++ i1)) as [i2 E2]. exists (i1 ++ i2).
    by rewrite E2, app_assoc.
  - by exists i1.
Qed.

Lemma appends_try_except (m : M A) (handler : exn → M A) :
  appends m → (∀ e, appends (handler e)) → appends (try_except m handler).
Proof.
  intros Hm Hf w h. rewrite try_except_eq. destruct (Hm w h) as [i1 E1].
  destruct (m w h) as [[a|e] h1]; simpl in E1; subst h1.
  - by exists i1.
  - destruct (Hf e w (h ++ i1)) as [i2 E2]. exists (i1 ++ i2).
    by rewrite E2, app_assoc.
Qed.

Lemma returns_ret (a : A) : returns (mret a).
Proof. intros w h. by exists a, h. Qed.

Lemma returns_bind (m : M A) (f : A → M B) :
  returns m → (∀ a, returns (f a)) → returns (m ≫= f).
Proof.
  intros Hm Hf w h. destruct (Hm w h) as (a & h1 & E1).
  rewrite (bind_return _ _ _ _ _ _ E1). apply Hf.
Qed.

Lemma returns_try_except (m : M A) (handler : exn → M A) :
  (∀ e, returns (handler e)) → returns (try_except m handler).
Proof.
  intros Hf w h. rewrite try_except_eq.
  destruct (m w h) as [[a|e] h1]; [by exists a, h1 | apply Hf].
Qed.

End Appends.

Lemma run_cmd_history cmd capture check w h : (run_cmd cmd capture check w h).2 = h ++ [cmd].
Proof.
  unfold run_cmd. destruct (w h cmd) as [rc out|]; [|done].
  by destruct (check && bool_decide (rc ≠ 0)).
Qed.

Lemma appends_run_cmd cmd capture check : appends (run_cmd cmd capture check).
Proof. intros w h. exists [cmd]. apply run_cmd_history. Qed.

(** Without [check], a command that starts returns its output. *)
Lemma run_cmd_unchecked cmd capture w h rc out :
  w h cmd = Exited rc out →
  run_cmd cmd capture false w h
  = (Return (if capture then Some (strip out) else None), h ++ [cmd]).
Proof. intros E. unfold run_cmd. by rewrite E. Qed.

Lemma run_cmd_not_started cmd capture check w h :
  w h cmd = NotStarted → run_cmd cmd capture check w h = (Raise OSError, h ++ [cmd]).
Proof. intros E. unfold run_cmd. by rewrite E. Qed.

(** Under [check], a command returns exactly when it exits with code 0. *)
Lemma run_cmd_checked cmd w h :
  run_cmd cmd true true w h
  = if succeeds w h cmd
    then (Return (match w h cmd with
                  | Exited _ out => Some (strip out)
                  | NotStarted => None
                  end), h ++ [cmd])
    else (Raise (match w h cmd with
                 | Exited _ _ => CalledProcessError
                 | NotStarted => OSError
                 end), h ++ [cmd]).
Proof.
  unfold run_cmd, succeeds. destruct (w h cmd) as [rc out|]; [|done].
  destruct rc; simpl; done.
Qed.

Create HintDb appends discriminated.
#[export] Hint Resolve appends_ret appends_raise appends_run_cmd : appends.
#[export] Hint Extern 2 (appends (_ ≫= _)) =>
  apply appends_bind; [|intros ?] : appends.
#[export] Hint Extern 2 (appends (try_except _ _)) =>
  apply appends_try_except; [|intros ?] : appends.
#[export] Hint Extern 3 (appends (if ?b then _ else _)) => destruct b : appends.
#[export] Hint Extern 3 (appends (match ?x with _ => _ end)) => destruct x : appends.

Create HintDb returns discriminated.
#[export] Hint Resolve returns_ret : returns.
#[export] Hint Extern 2 (returns (_ ≫= _)) =>
  apply returns_bind; [|intros ?] : returns.
#[export] Hint Extern 1 (returns (try_except _ _)) =>
  apply returns_try_except; intros ? : returns.
#[export] Hint Extern 3 (returns (if ?b then _ else _)) => destruct b : returns.

Lemma appends_sync_labels n U F : appends (sync_labels n U F).
Proof. unfold sync_labels, run_gh. auto 10 with appends. Qed.

Lemma appends_mark_pr_ready n : appends (mark_pr_ready n).
Proof. unfold mark_pr_ready, run_gh. auto 10 with appends. Qed.

Lemma appends_convert_pr_to_draft id : appends (convert_pr_to_draft id).
Proof. unfold convert_pr_to_draft, run_gh. auto 10 with appends. Qed.

Lemma returns_mark_pr_ready n : returns (mark_pr_ready n).
Proof. unfold mark_pr_ready. auto with returns. Qed.

Lemma returns_convert_pr_to_draft id : returns (convert_pr_to_draft id).
Proof. unfold convert_pr_to_draft. auto with returns. Qed.

#[export] Hint Resolve appends_sync_labels appends_mark_pr_ready
  appends_convert_pr_to_draft : appends.
#[export] Hint Resolve returns_mark_pr_ready returns_convert_pr_to_draft : returns.

(** The metadata update never raises, and its first command is the title
    and body edit. *)
Lemma update_pr_metadata_edit n t b U F d fd id w h :
  ∃ ok issued,
    update_pr_metadata n t b U F d fd id w h
    = (Return ok, h ++ GhPrEdit n t b :: issued).
Proof.
  unfold update_pr_metadata, run_gh. rewrite try_except_eq, bind_eq.
  pose proof (run_cmd_history (GhPrEdit n t b) true true w h) as Hh.
  destruct (run_cmd (GhPrEdit n t b) true true w h) as [[o|e] h1];
    simpl in Hh; subst h1.
  - assert (appends
      (sync_labels n U F;;
       (if truthy d && negb (truthy fd)
        then convert_pr_to_draft (str_opt id);; mret ()
        else if negb (truthy d) && truthy fd
        then mark_pr_ready n;; mret ()
        else mret ());;
       mret true)) as Ha by auto 10 with appends.
    destruct (Ha w (h ++ [GhPrEdit n t b])) as [issued Hi].
    match goal with |- context [match ?m w ?hh with _ => _ end] =>
      destruct (m w hh) as [[ok|e] h2] end; simpl in Hi; subst h2.
    + exists ok, issued. by rewrite <- app_assoc.
    + exists false, issued. by rewrite <- app_assoc.
  - by exists false, [].
Qed.


(** ** Branch Namer *)

Section BranchNamer.

Implicit Types (pr p q : UpstreamPR) (all_prs l : list UpstreamPR) (h : string).

Lemma count_head_cons h p l :
  count_head h (p :: l)
  = if decide (headRefName p = h) then S (count_head h l) else count_head h l.
Proof.
  unfold count_head. rewrite filter_cons. by destruct (decide _).
Qed.

Lemma count_head_pos h l :
  (0 < count_head h l)%nat ↔ ∃ (i : nat) p, l !! i = Some p ∧ headRefName p = h.
Proof.
  induction l as [|x l IH].
  - split; [cbn; lia | intros (i & p & Hi & _); by rewrite lookup_nil in Hi].
  - rewrite count_head_cons. destruct (decide (headRefName x = h)) as [E|N].
    + split; [intros _; by exists 0%nat, x | lia].
    + rewrite IH. split.
      * intros (i & p & Hi & Hp). by exists (S i), p.
      * intros ([|i] & p & Hi & Hp); simplify_eq/=; eauto.
Qed.

Lemma count_head_gt1 h l : (1 < count_head h l)%nat ↔ shares_head l h.
Proof.
  induction l as [|x l IH].
  - split; [cbn; lia | intros (i & j & p & q & _ & Hi & _); by rewrite lookup_nil in Hi].
  - rewrite count_head_cons. destruct (decide (headRefName x = h)) as [E|N].
    + split.
      * intros Hc. assert (0 < count_head h l)%nat as Hpos by lia.
        apply count_head_pos in Hpos as (i & p & Hi & Hp).
        exists 0%nat, (S i), x, p. by repeat split.
      * intros (i & j & p & q & Hij & Hi & Hj & Hp & Hq).
        assert (0 < count_head h l)%nat; [|lia].
        apply count_head_pos.
        destruct i as [|i], j as [|j]; simplify_eq/=; eauto.
    + rewrite IH. split.
      * intros (i & j & p & q & Hij & Hi & Hj & Hp & Hq).
        exists (S i), (S j), p, q. repeat split; auto.
      * intros (i & j & p & q & Hij & Hi & Hj & Hp & Hq).
        destruct i as [|i], j as [|j]; simplify_eq/=.
        exists i, j, p, q. repeat split; auto.
Qed.

Lemma head_once_not_shared h l : head_once l h → ¬ shares_head l h.
Proof.
  intros (k & r & _ & _ & Hu) (i & j & p & q & Hij & Hi & Hj & Hp & Hq).
  apply Hij. rewrite (Hu i p Hi Hp). by rewrite (Hu j q Hj Hq).
Qed.

Lemma get_branch_name_shared pr l :
  shares_head l (headRefName pr) →
  get_branch_name pr l = headRefName pr +:+ "-" +:+ str_int (number pr).
Proof.
  intros Hs. apply count_head_gt1 in Hs. unfold get_branch_name.
  by rewrite decide_True.
Qed.

Lemma get_branch_name_not_shared pr l :
  ¬ shares_head l (headRefName pr) → get_branch_name pr l = headRefName pr.
Proof.
  intros Hs. unfold get_branch_name. rewrite decide_False; [done|].
  by rewrite count_head_gt1.
Qed.

(** Two pull requests of the list with the same head branch and the same
    branch name have the same number: the qualification by the number
    separates the pull requests that share a head. *)
Lemma get_branch_name_same_head_inj p q l :
  p ∈ l → q ∈ l → headRefName p = headRefName q →
  get_branch_name p l = get_branch_name q l → number p = number q.
Proof.
  intros Hp Hq Hh. unfold get_branch_name. rewrite <- Hh.
  destruct (decide (1 < count_head (headRefName p) l)%nat) as [Hc|Hc].
  - intros E. apply (inj (String.append (headRefName p))) in E.
    apply (inj (String.append "-")) in E.
    by apply (inj pretty) in E.
  - intros _. rewrite count_head_gt1 in Hc.
    apply list_elem_of_lookup in Hp as [i Hi].
    apply list_elem_of_lookup in Hq as [j Hj].
    destruct (decide (i = j)) as [->|Hij]; [congruence|].
    destruct Hc. exists i, j, p, q. by repeat split.
Qed.

End BranchNamer.

(** C3. For a pull request of the upstream list: when more than one pull
    request of the list has its head branch name, its branch name is
    [{headBranch}-{prNumber}]; when its head branch name occurs exactly once,
    its branch name is the head branch name unchanged. *)
Theorem get_branch_name_disambiguation (pr : UpstreamPR) (all_prs : list UpstreamPR) :
  pr ∈ all_prs →
  (shares_head all_prs (headRefName pr) →
     get_branch_name pr all_prs = headRefName pr +:+ "-" +:+ str_int (number pr))
  ∧ (head_once all_prs (headRefName pr) →
     get_branch_name pr all_prs = headRefName pr).
Proof.
  intros _. split.
  - apply get_branch_name_shared.
  - intros Ho. by apply get_branch_name_not_shared, head_once_not_shared.
Qed.

(** Scenario 2, and a unique head next to it: [#42] and [#43] share
    [feature-x] and become [feature-x-42] and [feature-x-43]; [#44] keeps
    [solo]. *)
Lemma get_branch_name_disambiguation_witness :
  let prs := [Sample.pr42; Sample.pr43; Sample.pr44] in
  get_branch_name Sample.pr42 prs = "feature-x-42"
  ∧ get_branch_name Sample.pr43 prs = "feature-x-43"
  ∧ get_branch_name Sample.pr44 prs = "solo".
Proof.
  intros prs.
  assert (shares_head prs "feature-x") as Hs.
  { exists 0%nat, 1%nat, Sample.pr42, Sample.pr43. by repeat split. }
  assert (head_once prs "solo") as Ho.
  { exists 2%nat, Sample.pr44. repeat split; [done..|].
    intros [|[|[|j]]] q Hq Hh; simplify_eq/=; done. }
  split; [|split].
  - apply (get_branch_name_disambiguation Sample.pr42 prs); [set_solver | exact Hs].
  - apply (get_branch_name_disambiguation Sample.pr43 prs); [set_solver | exact Hs].
  - apply (get_branch_name_disambiguation Sample.pr44 prs); [set_solver | exact Ho].
Defined.

(** C2 fails on the code.  With pairwise distinct numbers, [#1] and [#2]
    share the head [x] and [#3] has the head [x-1]: [#1] is renamed to [x-1],
    the name that [#3] keeps, so two pull requests get one branch name. *)
Theorem get_branch_name_collision :
  let prs := [Sample.pr1; Sample.pr2; Sample.pr3] in
  NoDup (map number prs)
  ∧ branch_names prs = ["x-1"; "x-2"; "x-1"]
  ∧ number Sample.pr1 ≠ number Sample.pr3
  ∧ get_branch_name Sample.pr1 prs = get_branch_name Sample.pr3 prs
  ∧ ¬ NoDup (branch_names prs).
Proof.
  intros prs. split; [|split; [|split; [|split]]].
  - cbn. compute_done.
  - reflexivity.
  - cbn. lia.
  - reflexivity.
  - change (branch_names prs) with ["x-1"; "x-2"; "x-1"].
    intros Hnd. apply NoDup_cons in Hnd as [Hn _]. apply Hn. set_solver.
Qed.

(** ** Label delta *)

Lemma elem_of_labels_to_add (U F : list string) x :
  x ∈ labels_to_add U F ↔ x ∈ U ∧ x ∉ F.
Proof. unfold labels_to_add. set_solver. Qed.

Lemma elem_of_labels_to_remove (U F : list string) x :
  x ∈ labels_to_remove U F ↔ x ∈ F ∧ x ∉ U.
Proof. unfold labels_to_remove. set_solver. Qed.

Lemma apply_label_delta_upstream (U F : list string) :
  apply_label_delta (list_to_set F) (labels_to_add U F) (labels_to_remove U F)
  = list_to_set U.
Proof.
  apply set_eq. intros x. unfold apply_label_delta.
  rewrite elem_of_difference, elem_of_union, elem_of_labels_to_add,
    elem_of_labels_to_remove, !elem_of_list_to_set.
  destruct (decide (x ∈ U)), (decide (x ∈ F)); tauto.
Qed.

(** In a world where [gh] starts, the label sync issues exactly the label
    commands, whatever their exit codes. *)
Lemma sync_labels_history n (U F : list string) w h :
  starts w → (sync_labels n U F w h).2 = h ++ label_commands n U F.
Proof.
  intros Hw. unfold sync_labels, label_commands, run_gh.
  assert (∀ c h0, ∃ o, run_cmd c true false w h0 = (Return o, h0 ++ [c])) as Hrun.
  { intros c h0. specialize (Hw h0 c).
    destruct (w h0 c) as [rc out|] eqn:E; [|done].
    eexists. by apply run_cmd_unchecked with (rc := rc). }
  rewrite bind_eq.
  destruct (bool_decide (labels_to_add U F ≠ ∅)).
  - rewrite bind_eq. destruct (Hrun (GhPrAddLabel n (labels_to_add U F)) h) as [o ->].
    cbn [mret M_ret]. destruct (bool_decide (labels_to_remove U F ≠ ∅)).
    + rewrite bind_eq.
      destruct (Hrun (GhPrRemoveLabel n (labels_to_remove U F))
                  (h ++ [GhPrAddLabel n (labels_to_add U F)])) as [o' ->].
      cbn. by rewrite <- app_assoc.
    + cbn. done.
  - cbn [mret M_ret]. destruct (bool_decide (labels_to_remove U F ≠ ∅)).
    + rewrite bind_eq.
      destruct (Hrun (GhPrRemoveLabel n (labels_to_remove U F)) h) as [o' ->].
      done.
    + cbn. by rewrite app_nil_r.
Qed.

(** C7. For label lists [U] (upstream) and [F] (fork): a label is in the
    computed additions exactly when it is in [U] and not in [F], in the
    computed removals exactly when it is in [F] and not in [U]; applying both
    deltas to the fork's label set gives the upstream label set; and these
    are the sets that the label commands of [sync_labels] carry. *)
Theorem label_delta_correct (fork_pr_num : Z) (U F : list string) :
  (∀ x, x ∈ labels_to_add U F ↔ x ∈ U ∧ x ∉ F)
  ∧ (∀ x, x ∈ labels_to_remove U F ↔ x ∈ F ∧ x ∉ U)
  ∧ labels_to_add U F = list_to_set U ∖ list_to_set F
  ∧ labels_to_remove U F = list_to_set F ∖ list_to_set U
  ∧ apply_label_delta (list_to_set F) (labels_to_add U F) (labels_to_remove U F)
    = list_to_set U
  ∧ (∀ w h, starts w →
       (sync_labels fork_pr_num U F w h).2 = h ++ label_commands fork_pr_num U F).
Proof.
  split; [apply elem_of_labels_to_add|].
  split; [apply elem_of_labels_to_remove|].
  split; [done|]. split; [done|].
  split; [apply apply_label_delta_upstream|].
  intros w h. apply sync_labels_history.
Qed.

(** Upstream has [bug] and [ui], the fork has [ui] and [stale]: [bug] is
    added and [stale] is removed, also when both commands exit with an
    error. *)
Lemma label_delta_correct_witness :
  starts Sample.all_fail
  ∧ (sync_labels 7 ["bug"; "ui"] ["ui"; "stale"] Sample.all_fail []).2
    = [] ++ label_commands 7 ["bug"; "ui"] ["ui"; "stale"].
Proof.
  assert (starts Sample.all_fail) as Hs by (intros h c; discriminate).
  split; [exact Hs|].
  apply (label_delta_correct 7 ["bug"; "ui"] ["ui"; "stale"]). exact Hs.
Defined.

(** ** Per-PR processing of an existing mirror *)

Lemma label_set_Some f S :
  label_set f = Some S ↔
  ∃ ls, dict_get_default f [] = Some ls ∧ S = list_to_set (map name ls).
Proof.
  unfold label_set. destruct (dict_get_default f []) as [ls|]; simpl.
  - split; [intros [= <-]; eauto | intros (? & [= <-] & ->); done].
  - split; [done | intros (? & ? & _); done].
Qed.

Lemma get_label_names_Some f ls w h :
  dict_get_default f [] = Some ls →
  get_label_names f w h = (Return (map name ls), h).
Proof. intros E. unfold get_label_names. by rewrite E. Qed.

Section Existing.

Variables (pr : UpstreamPR) (branch_name : string)
          (fork_prs : pydict MirrorPR) (m : MirrorPR).
Variables (uls fls : list Label).
Hypothesis Hlookup : dict_lookup branch_name fork_prs = Some m.
Hypothesis Huls : dict_get_default (labels pr) [] = Some uls.
Hypothesis Hfls : dict_get_default (m_labels m) [] = Some fls.

Lemma changed_iff : metadata_test pr m uls fls = true ↔ metadata_differs pr m.
Proof using Huls Hfls.
  unfold metadata_test, metadata_changed, metadata_differs, same_title, same_body,
    same_draft, label_set. rewrite Huls, Hfls. simpl.
  rewrite !orb_true_iff, !bool_decide_eq_true.
  split.
  - intros [[[H|H]|H]|H] (H1 & H2 & H3 & H4); try done.
    apply H. congruence.
  - intros H.
    destruct (decide (dict_get_default (m_title m) EmptyString = Some (title pr)));
      [|tauto].
    destruct (decide (dict_get_default (m_body m) EmptyString
                      = Some (expected_body pr))); [|tauto].
    destruct (decide (list_to_set (C := gset string) (map name fls)
                      = list_to_set (map name uls))); [|tauto].
    right. intros Hd. apply H. repeat split; try done. by f_equal.
Qed.

Lemma update_edit w h :
  ∃ ok issued,
    metadata_update pr m uls fls w h
    = (Return ok, h ++ edit_command pr m :: issued).
Proof. apply update_pr_metadata_edit. Qed.

(** The branch tip is up to date: no branch command; the metadata update
    runs exactly when the metadata differs, and its outcome is dropped. *)
Lemma create_or_update_pr_same_tip w h :
  same_tip pr m →
  create_or_update_pr pr branch_name fork_prs w h
  = if metadata_test pr m uls fls
    then (Return Updated, (metadata_update pr m uls fls w h).2)
    else (Return Unchanged, h).
Proof using Hlookup Huls Hfls.
  intros Htip. unfold create_or_update_pr.
  rewrite (bind_return _ _ _ _ _ _ (get_label_names_Some _ _ w h Huls)).
  rewrite Hlookup.
  rewrite (bind_return _ _ _ _ _ _ (get_label_names_Some _ _ w h Hfls)).
  unfold same_tip in Htip. rewrite Htip.
  rewrite bool_decide_false by (intros H; by apply H).
  rewrite bind_eq. cbn [mret M_ret]. fold (expected_body pr). fold (metadata_test pr m uls fls).
  destruct (metadata_test pr m uls fls); [|done].
  fold (metadata_update pr m uls fls). rewrite !bind_eq.
  destruct (update_edit w h) as (ok & issued & ->). done.
Qed.

(** The branch tip differs: the forced fetch and push come first; when
    one of them fails the result is [Failed] and nothing else is issued;
    when both succeed the result is [Updated] and the metadata update runs
    exactly when the metadata differs. *)
Lemma create_or_update_pr_new_tip w h :
  ¬ same_tip pr m →
  let fetch := fetch_forced pr branch_name in
  let push := push_forced branch_name in
  create_or_update_pr pr branch_name fork_prs w h
  = if succeeds w h fetch
    then if succeeds w (h ++ [fetch]) push
         then (Return Updated,
               if metadata_test pr m uls fls
               then (metadata_update pr m uls fls w (h ++ [fetch; push])).2
               else h ++ [fetch; push])
         else (Return Failed, h ++ [fetch; push])
    else (Return Failed, h ++ [fetch]).
Proof using Hlookup Huls Hfls.
  intros Htip fetch push. unfold create_or_update_pr.
  rewrite (bind_return _ _ _ _ _ _ (get_label_names_Some _ _ w h Huls)).
  rewrite Hlookup.
  rewrite (bind_return _ _ _ _ _ _ (get_label_names_Some _ _ w h Hfls)).
  unfold same_tip in Htip. rewrite bool_decide_true by done.
  rewrite bind_eq, try_except_eq, bind_eq.
  fold (fetch_forced pr branch_name). fold fetch.
  rewrite (run_cmd_checked fetch).
  destruct (succeeds w h fetch); [|done].
  rewrite bind_eq. fold (push_forced branch_name). fold push.
  rewrite (run_cmd_checked push). rewrite <- app_assoc. simpl (_ ++ _).
  destruct (succeeds w (h ++ [fetch]) push).
  - cbn [mret M_ret].
    fold (expected_body pr). fold (metadata_test pr m uls fls).
    destruct (metadata_test pr m uls fls); [|done].
    fold (metadata_update pr m uls fls). rewrite !bind_eq.
    destruct (update_edit w (h ++ [fetch; push])) as (ok & issued & ->). done.
  - done.
Qed.

End Existing.

(** ** The expected mirror body *)

Lemma append_cons c (s t : string) : String c s +:+ t = String c (s +:+ t).
Proof. reflexivity. Qed.

Lemma append_assoc (s t u : string) : (s +:+ t) +:+ u = s +:+ t +:+ u.
Proof. induction s as [|c s IH]; [done|]. by rewrite !append_cons, IH. Qed.


(** The template: the line with the number and the link, the author line
    without [@], an empty line, the separator, and the body verbatim. *)
Lemma build_pr_body_template N A B :
  build_pr_body N A B
  = mirror_line N +:+ LF +:+ "**Original author:** " +:+ A +:+ " " +:+ LF
      +:+ LF +:+ separator +:+ B.
Proof.
  unfold build_pr_body, mirror_line, upstream_link, separator.
  by rewrite !append_assoc.
Qed.






(** ** Empty strings *)

Lemma append_empty_r (s : string) : s +:+ EmptyString = s.
Proof. induction s as [|c s IH]; [done|]. by rewrite append_cons, IH. Qed.

(** ** Metadata update failures *)

(** With an up-to-date tip and differing metadata the result is [Updated]
    in every world: the outcome of the metadata update is not looked at. *)
Lemma metadata_update_outcome_dropped pr branch_name fork_prs m w h :
  dict_lookup branch_name fork_prs = Some m →
  is_Some (label_set (labels pr)) → is_Some (label_set (m_labels m)) →
  same_tip pr m → metadata_differs pr m →
  (create_or_update_pr pr branch_name fork_prs w h).1 = Return Updated.
Proof.
  intros Hlookup [S HS] [S' HS'] Htip Hdiff.
  apply label_set_Some in HS as (uls & Huls & _).
  apply label_set_Some in HS' as (fls & Hfls & _).
  rewrite (create_or_update_pr_same_tip pr branch_name fork_prs m uls fls
             Hlookup Huls Hfls w h Htip).
  apply (changed_iff pr m uls fls Huls Hfls) in Hdiff.
  by rewrite Hdiff.
Qed.

(** C6 fails on the code.  The mirror of [#42] has the tip of upstream and
    an old title; the title and body edit exits with code 1.  The pull
    request is counted as updated, the failed count stays 0 and the exit
    code is 0. *)
Theorem metadata_failure_counted_as_updated :
  let fork_prs := get_fork_prs [Sample.mirror42_old_title] in
  let edit := edit_command Sample.pr42 Sample.mirror42_old_title in
  same_tip Sample.pr42 Sample.mirror42_old_title
  ∧ ¬ same_title Sample.pr42 Sample.mirror42_old_title
  ∧ succeeds Sample.all_fail [] edit = false
  ∧ update_pr_metadata 7 "Add X" (expected_body Sample.pr42) ["bug"] ["bug"]
      (Some false) (Some false) (Some "PR_node") Sample.all_fail []
    = (Return false, [edit])
  ∧ run (create_or_update_pr Sample.pr42 "feature-x" fork_prs) Sample.all_fail
    = (Return Updated, [edit])
  ∧ run (sync_prs_summary [Sample.pr42] fork_prs) Sample.all_fail
    = (Return {| s_created := 0; s_updated := 1; s_unchanged := 0;
                 s_closed := 0; s_failed := 0 |}, [edit])
  ∧ run (main [Sample.pr42] fork_prs) Sample.all_fail = (Return 0, [edit]).
Proof.
  intros fork_prs edit. split; [reflexivity|]. split; [by vm_compute|].
  repeat split; vm_compute; reflexivity.
Qed.

(** ** Branch update and metadata update *)

(** C9 fails on the code.  The mirror of [#42] has an old tip and an old
    title, and the forced fetch exits with code 1: the result is [Failed]
    and the title and body edit is not issued. *)
Lemma branch_failure_skips_metadata_update :
  let fork_prs := get_fork_prs [Sample.mirror42_old] in
  let outcome := run (create_or_update_pr Sample.pr42 "feature-x" fork_prs)
                     Sample.all_fail in
  dict_lookup "feature-x" fork_prs = Some Sample.mirror42_old
  ∧ ¬ same_tip Sample.pr42 Sample.mirror42_old
  ∧ metadata_differs Sample.pr42 Sample.mirror42_old
  ∧ outcome = (Return Failed, [fetch_forced Sample.pr42 "feature-x"])
  ∧ edit_command Sample.pr42 Sample.mirror42_old ∉ outcome.2.
Proof.
  intros fork_prs outcome.
  split; [reflexivity|]. split; [by vm_compute|].
  split; [intros (H & _); by vm_compute in H|].
  split; [by vm_compute|].
  change outcome.2 with [fetch_forced Sample.pr42 "feature-x"].
  intros H. apply list_elem_of_singleton in H. discriminate.
Qed.

(** C9, amended.  For an existing mirror whose tip and metadata both
    differ (label keys holding lists): the forced fetch and the forced push
    come first; when both exit with code 0, the title and body edit of the
    metadata update is issued next and the result is [Updated]; when the
    fetch or the push fails, the result is [Failed] and nothing further is
    issued. *)
Theorem branch_update_then_metadata_update
    (pr : UpstreamPR) (branch_name : string) (fork_prs : pydict MirrorPR)
    (m : MirrorPR) (w : world) (h : history) :
  dict_lookup branch_name fork_prs = Some m →
  is_Some (label_set (labels pr)) → is_Some (label_set (m_labels m)) →
  ¬ same_tip pr m → metadata_differs pr m →
  let fetch := fetch_forced pr branch_name in
  let push := push_forced branch_name in
  (succeeds w h fetch = true → succeeds w (h ++ [fetch]) push = true →
     ∃ issued,
       create_or_update_pr pr branch_name fork_prs w h
       = (Return Updated, h ++ fetch :: push :: edit_command pr m :: issued))
  ∧ (succeeds w h fetch = false →
     create_or_update_pr pr branch_name fork_prs w h
     = (Return Failed, h ++ [fetch]))
  ∧ (succeeds w h fetch = true → succeeds w (h ++ [fetch]) push = false →
     create_or_update_pr pr branch_name fork_prs w h
     = (Return Failed, h ++ [fetch; push])).
Proof.
  intros Hlookup [S HS] [S' HS'] Htip Hdiff fetch push.
  apply label_set_Some in HS as (uls & Huls & _).
  apply label_set_Some in HS' as (fls & Hfls & _).
  rewrite (create_or_update_pr_new_tip pr branch_name fork_prs m uls fls
             Hlookup Huls Hfls w h Htip).
  apply (changed_iff pr m uls fls Huls Hfls) in Hdiff.
  fold fetch push. split; [|split].
  - intros -> ->. rewrite Hdiff.
    destruct (update_edit pr m uls fls w (h ++ [fetch; push]))
      as (ok & issued & Hupd).
    exists issued. rewrite Hupd. cbn [snd]. by rewrite <- app_assoc.
  - by intros ->.
  - by intros -> ->.
Qed.

Lemma branch_update_then_metadata_update_witness :
  let fork_prs := get_fork_prs [Sample.mirror42_old] in
  let fetch := fetch_forced Sample.pr42 "feature-x" in
  let push := push_forced "feature-x" in
  (∃ issued,
     create_or_update_pr Sample.pr42 "feature-x" fork_prs Sample.all_succeed []
     = (Return Updated,
        [] ++ fetch :: push
           :: edit_command Sample.pr42 Sample.mirror42_old :: issued))
  ∧ create_or_update_pr Sample.pr42 "feature-x" fork_prs Sample.all_fail []
    = (Return Failed, [] ++ [fetch]).
Proof.
  intros fork_prs fetch push.
  assert (metadata_differs Sample.pr42 Sample.mirror42_old) as Hd.
  { intros (H & _). by vm_compute in H. }
  split.
  - apply (branch_update_then_metadata_update Sample.pr42 "feature-x" fork_prs
             Sample.mirror42_old Sample.all_succeed []);
      [reflexivity | by eexists | by eexists | by vm_compute | exact Hd
      | reflexivity | reflexivity].
  - apply (branch_update_then_metadata_update Sample.pr42 "feature-x" fork_prs
             Sample.mirror42_old Sample.all_fail []);
      [reflexivity | by eexists | by eexists | by vm_compute | exact Hd
      | reflexivity].
Defined.

(** ** The index of fork PRs *)

Lemma elem_of_map {A B} (f : A → B) (l : list A) (y : B) :
  y ∈ map f l ↔ ∃ x, y = f x ∧ x ∈ l.
Proof.
  rewrite list_elem_of_In, in_map_iff. setoid_rewrite list_elem_of_In.
  split; intros (x & H1 & H2); eauto.
Qed.

Lemma dict_lookup_elem {V} (k : string) (v : V) (d : pydict V) :
  dict_lookup k d = Some v → (k, v) ∈ d.
Proof.
  induction d as [|[k' v'] d IH]; [done|]. simpl.
  destruct (decide (k' = k)) as [->|_].
  - intros [= ->]. apply list_elem_of_here.
  - intros H. apply list_elem_of_further. by apply IH.
Qed.

Lemma dict_set_elem {V} (k k' : string) (v v' : V) (d : pydict V) :
  (k', v') ∈ dict_set k v d → (k', v') = (k, v) ∨ (k', v') ∈ d.
Proof.
  induction d as [|[k0 v0] d IH]; simpl.
  - intros H%list_elem_of_singleton. by left.
  - destruct (decide (k0 = k)) as [->|_].
    + intros [H|H]%elem_of_cons; [by left | right; by apply list_elem_of_further].
    + intros [H|H]%elem_of_cons.
      * right. rewrite H. apply list_elem_of_here.
      * destruct (IH H) as [?|?]; [by left | right; by apply list_elem_of_further].
Qed.

(** Every entry of the index is a fork PR of the list under its own head
    branch. *)
Lemma get_fork_prs_elem (prs : list MirrorPR) k m :
  (k, m) ∈ get_fork_prs prs → k = m_headRefName m ∧ m ∈ prs.
Proof.
  unfold get_fork_prs.
  assert (∀ d : pydict MirrorPR,
    (∀ k m, (k, m) ∈ d → k = m_headRefName m ∧ m ∈ prs) →
    ∀ l, (∀ x, x ∈ l → x ∈ prs) →
    ∀ k m, (k, m) ∈ fold_left (λ d pr, dict_set (m_headRefName pr) pr d) l d →
           k = m_headRefName m ∧ m ∈ prs) as Hgen.
  { intros d Hd l. revert d Hd. induction l as [|x l IH]; intros d Hd Hl k' m'.
    - apply Hd.
    - simpl. apply IH.
      + intros k0 m0 [H|H]%dict_set_elem.
        * injection H as -> ->. split; [done|]. apply Hl, list_elem_of_here.
        * by apply Hd.
      + intros y Hy. by apply Hl, list_elem_of_further. }
  apply (Hgen [] ltac:(intros ? ? H; by apply elem_of_nil in H) prs ltac:(done)).
Qed.

Lemma dict_set_elem_old {V} (k k' : string) (v v' : V) (d : pydict V) :
  k' ≠ k → (k', v') ∈ d → (k', v') ∈ dict_set k v d.
Proof.
  intros Hne. induction d as [|[k0 v0] d IH]; simpl.
  - intros H. by apply elem_of_nil in H.
  - destruct (decide (k0 = k)) as [->|_].
    + intros [H|H]%elem_of_cons; [congruence | by apply list_elem_of_further].
    + intros [H|H]%elem_of_cons.
      * rewrite H. apply list_elem_of_here.
      * by apply list_elem_of_further, IH.
Qed.

Lemma dict_set_elem_new {V} (k : string) (v : V) (d : pydict V) :
  (k, v) ∈ dict_set k v d.
Proof.
  induction d as [|[k0 v0] d IH]; simpl.
  - apply list_elem_of_here.
  - destruct (decide (k0 = k)) as [->|_].
    + apply list_elem_of_here.
    + by apply list_elem_of_further.
Qed.

(** When the fork PRs have pairwise distinct head branches, each of them
    is in the index. *)
Lemma get_fork_prs_complete (prs : list MirrorPR) m :
  NoDup (map m_headRefName prs) → m ∈ prs →
  (m_headRefName m, m) ∈ get_fork_prs prs.
Proof.
  unfold get_fork_prs.
  assert (∀ l (d : pydict MirrorPR) k v,
    (k, v) ∈ d → k ∉ map m_headRefName l →
    (k, v) ∈ fold_left (λ d pr, dict_set (m_headRefName pr) pr d) l d) as Hkeep.
  { induction l as [|x l IH]; intros d k v Hin Hk; [done|]. simpl.
    apply not_elem_of_cons in Hk as [Hx Hl].
    apply IH; [|done]. by apply dict_set_elem_old. }
  intros Hnd Hin. generalize (@nil (string * MirrorPR)).
  induction prs as [|x l IH]; intros d.
  - by apply elem_of_nil in Hin.
  - simpl in Hnd. apply NoDup_cons in Hnd as [Hx Hnd]. simpl.
    apply elem_of_cons in Hin as [->|Hin].
    + apply Hkeep; [apply dict_set_elem_new | done].
    + by apply IH.
Qed.

(** ** Stale sweep *)

Lemma stale_prs_cons B k m (items : pydict MirrorPR) :
  stale_prs B ((k, m) :: items)
  = if bool_decide (k ∉ B) then m :: stale_prs B items else stale_prs B items.
Proof.
  unfold stale_prs. rewrite filter_cons. simpl.
  destruct (decide (k ∉ B)) as [H|H].
  - by rewrite bool_decide_true.
  - by rewrite bool_decide_false.
Qed.

Lemma elem_of_stale_prs B (items : pydict MirrorPR) m :
  m ∈ stale_prs B items ↔ ∃ k, (k, m) ∈ items ∧ k ∉ B.
Proof.
  unfold stale_prs. rewrite elem_of_map. split.
  - intros ([k m'] & -> & H%list_elem_of_filter). simpl in *. exists k. tauto.
  - intros (k & Hin & Hk). exists (k, m). split; [done|].
    apply list_elem_of_filter. by split.
Qed.

(** One close attempt: its command is issued; the count grows unless the
    command could not be started; no exception escapes. *)
Lemma close_attempt n (closed : Z) w h :
  try_except (run_gh (GhPrClose n) false;; mret (closed + 1))
             (λ _, mret closed) w h
  = (Return (match w h (GhPrClose n) with
             | Exited _ _ => closed + 1
             | NotStarted => closed
             end),
     h ++ [GhPrClose n]).
Proof.
  rewrite try_except_eq, bind_eq. unfold run_gh, run_cmd.
  by destruct (w h (GhPrClose n)).
Qed.

(** The sweep issues one close per selected fork PR, in the order of the
    index, and returns; a close that exits with an error code is counted as
    closed all the same. *)
Lemma close_stale_loop_spec B (items : pydict MirrorPR) (closed : Z) w h :
  ∃ closed',
    close_stale_loop B items closed w h
    = (Return closed',
       h ++ map (λ m, GhPrClose (m_number m)) (stale_prs B items))
    ∧ (closed ≤ closed' ≤ closed + Z.of_nat (length (stale_prs B items)))%Z
    ∧ (starts w → closed' = closed + Z.of_nat (length (stale_prs B items))).
Proof.
  revert closed h. induction items as [|[k m] items IH]; intros closed h.
  - exists closed. simpl. rewrite app_nil_r. repeat split; lia.
  - simpl close_stale_loop. rewrite stale_prs_cons.
    destruct (bool_decide (k ∉ B)).
    + rewrite bind_eq, close_attempt.
      set (c1 := match w h (GhPrClose (m_number m)) with
                 | Exited _ _ => closed + 1
                 | NotStarted => closed
                 end).
      destruct (IH c1 (h ++ [GhPrClose (m_number m)])) as (c2 & -> & Hb & Hs).
      exists c2. rewrite <- app_assoc. split; [done|].
      assert (closed ≤ c1 ≤ closed + 1)%Z as Hc1.
      { subst c1. destruct (w h _); lia. }
      simpl length. split; [lia|].
      intros Hw. rewrite (Hs Hw). subst c1. specialize (Hw h (GhPrClose (m_number m))).
      destruct (w h _); [lia|done].
    + apply IH.
Qed.

(** ** The main loop *)

Lemma insert_by_number_perm x l : insert_by_number x l ≡ₚ x :: l.
Proof.
  induction l as [|y l IH]; [done|]. simpl.
  destruct (bool_decide _); [done|]. rewrite IH. apply Permutation_swap.
Qed.

Lemma sorted_by_number_perm l : sorted_by_number l ≡ₚ l.
Proof.
  induction l as [|x l IH]; [done|]. simpl.
  by rewrite insert_by_number_perm, IH.
Qed.

Lemma tally_branches st r : upstream_branches (tally st r) = upstream_branches st.
Proof. by destruct r. Qed.

(** When the loop returns, the set of branches is the set of the branch
    names of the pull requests it went through, whatever their results. *)
Lemma process_prs_branches up fork todo st w h st' h' :
  process_prs up fork todo st w h = (Return st', h') →
  upstream_branches st'
  = list_to_set (map (λ pr, get_branch_name pr up) todo) ∪ upstream_branches st.
Proof.
  revert st h. induction todo as [|pr todo IH]; intros st h.
  - intros [= <- <-]. simpl. by rewrite union_empty_l_L.
  - simpl process_prs. rewrite bind_eq.
    destruct (create_or_update_pr _ _ _ w h) as [[r|e] h1]; [|done].
    intros Hrest. apply IH in Hrest. rewrite Hrest, tally_branches. simpl.
    apply set_eq. intros x. rewrite !elem_of_union. tauto.
Qed.

Lemma process_prs_branch_name_set up fork w st h :
  process_prs up fork (sorted_by_number up) initial_state w [] = (Return st, h) →
  upstream_branches st = branch_name_set up.
Proof.
  intros H%process_prs_branches. rewrite H. unfold branch_name_set, branch_names.
  simpl. rewrite union_empty_r_L. apply set_eq. intros b.
  rewrite !elem_of_list_to_set, !elem_of_map.
  by setoid_rewrite (sorted_by_number_perm up).
Qed.

(** ** Failures of the sweep *)

(** C5 fails on the code.  Upstream has no open pull request and the fork
    has one; its close exits with code 1.  The summary counts it as closed,
    the failed count is 0 and the exit code is 0.  When [gh] cannot even be
    started, the close is not counted as closed, and the failed count and
    the exit code are 0 again. *)
Lemma sweep_failure_not_counted :
  let fork_prs := get_fork_prs [Sample.mirror_gone] in
  succeeds Sample.all_fail [] (GhPrClose 9) = false
  ∧ run (sync_prs_summary [] fork_prs) Sample.all_fail
    = (Return {| s_created := 0; s_updated := 0; s_unchanged := 0;
                 s_closed := 1; s_failed := 0 |}, [GhPrClose 9])
  ∧ run (main [] fork_prs) Sample.all_fail = (Return 0, [GhPrClose 9])
  ∧ run (sync_prs_summary [] fork_prs) Sample.none_start
    = (Return {| s_created := 0; s_updated := 0; s_unchanged := 0;
                 s_closed := 0; s_failed := 0 |}, [GhPrClose 9])
  ∧ run (main [] fork_prs) Sample.none_start = (Return 0, [GhPrClose 9]).
Proof. intros fork_prs. repeat split; vm_compute; reflexivity. Qed.

(** C5, amended.  The sweep returns in every world and has no part in the
    failed count: when the main loop returns with its counters, the summary
    carries the failed count of the main loop, and the success flag and the
    exit code depend on that count alone.  The closed count is at most the
    number of selected fork PRs, and it is that number whenever [gh] starts,
    also for the closes that exit with an error code. *)
Theorem sweep_outside_failed_tally (upstream_prs : list UpstreamPR)
    (fork_prs : pydict MirrorPR) (w : world) (st : loop_state) (h : history) :
  process_prs upstream_prs fork_prs (sorted_by_number upstream_prs)
              initial_state w [] = (Return st, h) →
  ∃ closed h',
    close_stale_prs (upstream_branches st) fork_prs w h = (Return closed, h')
    ∧ (0 ≤ closed ≤ Z.of_nat (length (stale_prs (upstream_branches st) fork_prs)))%Z
    ∧ (starts w →
       closed = Z.of_nat (length (stale_prs (upstream_branches st) fork_prs)))
    ∧ run (sync_prs_summary upstream_prs fork_prs) w
      = (Return {| s_created := created st; s_updated := updated st;
                   s_unchanged := unchanged st; s_closed := closed;
                   s_failed := failed st |}, h')
    ∧ run (sync_prs upstream_prs fork_prs) w
      = (Return (bool_decide (failed st = 0)), h')
    ∧ run (main upstream_prs fork_prs) w
      = (Return (if bool_decide (failed st = 0) then 0 else 1), h').
Proof.
  intros Hloop.
  destruct (close_stale_loop_spec (upstream_branches st) fork_prs 0 w h)
    as (closed & Hclose & Hbound & Hstarts).
  exists closed, (h ++ map (λ m, GhPrClose (m_number m))
                          (stale_prs (upstream_branches st) fork_prs)).
  assert (run (sync_prs_summary upstream_prs fork_prs) w
          = (Return {| s_created := created st; s_updated := updated st;
                       s_unchanged := unchanged st; s_closed := closed;
                       s_failed := failed st |},
             h ++ map (λ m, GhPrClose (m_number m))
                      (stale_prs (upstream_branches st) fork_prs))) as Hsum.
  { unfold run, sync_prs_summary.
    rewrite (bind_return _ _ _ _ _ _ Hloop).
    unfold close_stale_prs. by rewrite (bind_return _ _ _ _ _ _ Hclose). }
  assert (run (sync_prs upstream_prs fork_prs) w
          = (Return (bool_decide (failed st = 0)),
             h ++ map (λ m, GhPrClose (m_number m))
                      (stale_prs (upstream_branches st) fork_prs))) as Hsync.
  { unfold run, sync_prs. by rewrite (bind_return _ _ _ _ _ _ Hsum). }
  split; [exact Hclose|]. split; [lia|]. split; [intros Hw; rewrite (Hstarts Hw); lia|].
  split; [exact Hsum|]. split; [exact Hsync|].
  unfold run, main. by rewrite (bind_return _ _ _ _ _ _ Hsync).
Qed.

Lemma sweep_outside_failed_tally_witness :
  let fork_prs := get_fork_prs [Sample.mirror_gone] in
  ∃ st h closed h',
    process_prs [] fork_prs (sorted_by_number []) initial_state Sample.all_fail []
    = (Return st, h)
    ∧ close_stale_prs (upstream_branches st) fork_prs Sample.all_fail h
      = (Return closed, h')
    ∧ run (main [] fork_prs) Sample.all_fail
      = (Return (if bool_decide (failed st = 0) then 0 else 1), h').
Proof.
  intros fork_prs.
  destruct (sweep_outside_failed_tally [] fork_prs Sample.all_fail
              initial_state [] eq_refl)
    as (closed & h' & Hclose & _ & _ & _ & _ & Hmain).
  exists initial_state, [], closed, h'. split; [reflexivity|]. by split.
Defined.

(** ** Idempotence *)

Lemma create_or_update_pr_in_sync pr branch_name fork_prs m w h :
  dict_lookup branch_name fork_prs = Some m → in_sync pr m →
  create_or_update_pr pr branch_name fork_prs w h = (Return Unchanged, h).
Proof.
  intros Hlookup (Htip & Htitle & Hbody & [[S HS] Hlabels] & Hdraft).
  pose proof HS as HS'. rewrite <- Hlabels in HS'.
  apply label_set_Some in HS as (uls & Huls & _).
  apply label_set_Some in HS' as (fls & Hfls & _).
  rewrite (create_or_update_pr_same_tip pr branch_name fork_prs m uls fls
             Hlookup Huls Hfls w h Htip).
  pose proof (changed_iff pr m uls fls Huls Hfls) as Hch.
  match goal with |- (if ?c then _ else _) = _ => assert (c = false) as -> end;
    [|done].
  apply not_true_iff_false. intros E. apply Hch in E. by apply E.
Qed.

Lemma process_prs_in_sync up fork_prs todo st w h :
  (∀ pr, pr ∈ todo →
     ∃ m, dict_lookup (get_branch_name pr up) fork_prs = Some m ∧ in_sync pr m) →
  ∃ st',
    process_prs up fork_prs todo st w h = (Return st', h)
    ∧ created st' = created st ∧ updated st' = updated st
    ∧ unchanged st' = (unchanged st + Z.of_nat (length todo))%Z
    ∧ failed st' = failed st.
Proof.
  revert st. induction todo as [|pr todo IH]; intros st Hall.
  - exists st. simpl. repeat split; lia.
  - destruct (Hall pr) as (m & Hlookup & Hsync); [apply list_elem_of_here|].
    simpl process_prs.
    rewrite (bind_return _ _ _ _ _ _
               (create_or_update_pr_in_sync _ _ _ _ w h Hlookup Hsync)).
    destruct (IH (tally (add_branch st (get_branch_name pr up)) Unchanged))
      as (st' & -> & Hc & Hu & Hn & Hf).
    { intros pr' Hin. apply Hall. by apply list_elem_of_further. }
    exists st'. split; [done|]. simpl in *. repeat split; lia.
Qed.

Lemma stale_prs_all_known B (items : pydict MirrorPR) :
  (∀ k m, (k, m) ∈ items → k ∈ B) → stale_prs B items = [].
Proof.
  intros Hall. apply elem_of_nil_inv. intros m (k & Hin & Hk)%elem_of_stale_prs.
  apply Hk. by apply (Hall k m).
Qed.

(** C1. When every upstream pull request has, under its branch name, a
    mirror with the same head commit, the same title, the expected body, an
    equal label set and the same draft flag, and the head branch of every
    fork PR is among the computed branch names: every upstream pull request
    is classified [Unchanged] without a command, the sweep closes nothing,
    and the whole run issues no command at all (no Create, no branch update,
    no metadata update, no Close), counts every pull request as unchanged
    and exits with code 0. *)
Theorem reconciliation_idempotent (upstream_prs : list UpstreamPR)
    (fork_list : list MirrorPR) (w : world) :
  let fork_prs := get_fork_prs fork_list in
  (∀ pr, pr ∈ upstream_prs →
     ∃ m, dict_lookup (get_branch_name pr upstream_prs) fork_prs = Some m
          ∧ in_sync pr m) →
  (∀ m, m ∈ fork_list → m_headRefName m ∈ branch_name_set upstream_prs) →
  (∀ pr h, pr ∈ upstream_prs →
     create_or_update_pr pr (get_branch_name pr upstream_prs) fork_prs w h
     = (Return Unchanged, h))
  ∧ stale_prs (branch_name_set upstream_prs) fork_prs = []
  ∧ run (sync_prs_summary upstream_prs fork_prs) w
    = (Return {| s_created := 0; s_updated := 0;
                 s_unchanged := Z.of_nat (length upstream_prs);
                 s_closed := 0; s_failed := 0 |}, [])
  ∧ run (main upstream_prs fork_prs) w = (Return 0, []).
Proof.
  intros fork_prs Hsync Hknown.
  assert (stale_prs (branch_name_set upstream_prs) fork_prs = []) as Hnone.
  { apply stale_prs_all_known. intros k m Hin.
    apply get_fork_prs_elem in Hin as [-> Hin]. by apply Hknown. }
  destruct (process_prs_in_sync upstream_prs fork_prs
              (sorted_by_number upstream_prs) initial_state w [])
    as (st & Hloop & Hc & Hu & Hn & Hf).
  { intros pr Hin. apply Hsync. by rewrite <- (sorted_by_number_perm upstream_prs). }
  pose proof (process_prs_branch_name_set _ _ _ _ _ Hloop) as Hset.
  destruct (close_stale_loop_spec (upstream_branches st) fork_prs 0 w [])
    as (closed & Hclose & Hbound & _).
  rewrite Hset, Hnone in Hclose, Hbound. simpl in Hclose, Hbound.
  assert (closed = 0) as -> by lia.
  assert (run (sync_prs_summary upstream_prs fork_prs) w
          = (Return {| s_created := 0; s_updated := 0;
                       s_unchanged := Z.of_nat (length upstream_prs);
                       s_closed := 0; s_failed := 0 |}, [])) as Hsum.
  { unfold run, sync_prs_summary. rewrite (bind_return _ _ _ _ _ _ Hloop).
    unfold close_stale_prs. rewrite Hset, (bind_return _ _ _ _ _ _ Hclose).
    cbn [mret M_ret]. rewrite Hc, Hu, Hn, Hf. simpl.
    by rewrite (Permutation_length (sorted_by_number_perm upstream_prs)). }
  split; [|split; [exact Hnone|split; [exact Hsum|]]].
  - intros pr h Hin. destruct (Hsync pr Hin) as (m & Hlookup & Hm).
    by apply create_or_update_pr_in_sync with (m := m).
  - unfold run, main, sync_prs.
    unfold run in Hsum. rewrite !bind_eq, Hsum. reflexivity.
Qed.

(** A second run on [#42] and its mirror in sync, in the world where every
    command would fail: nothing is issued. *)
Lemma reconciliation_idempotent_witness :
  run (sync_prs_summary [Sample.pr42] (get_fork_prs [Sample.mirror42]))
      Sample.all_fail
  = (Return {| s_created := 0; s_updated := 0; s_unchanged := 1;
               s_closed := 0; s_failed := 0 |}, [])
  ∧ run (main [Sample.pr42] (get_fork_prs [Sample.mirror42])) Sample.all_fail
    = (Return 0, []).
Proof.
  destruct (reconciliation_idempotent [Sample.pr42] [Sample.mirror42]
              Sample.all_fail) as (_ & _ & Hsum & Hmain).
  - intros pr Hin. apply list_elem_of_singleton in Hin as ->.
    exists Sample.mirror42. split; [reflexivity|].
    repeat split; try reflexivity. by eexists.
  - intros m Hin. apply list_elem_of_singleton in Hin as ->.
    vm_compute. reflexivity.
  - split; [exact Hsum | exact Hmain].
Defined.

(** * Further properties *)

(** ** Decimal numerals *)

Lemma all_chars_append P (s t : string) :
  all_chars P (s +:+ t) = all_chars P s && all_chars P t.
Proof.
  induction s as [|c s IH]; [done|]. rewrite append_cons. simpl.
  by rewrite IH, andb_assoc.
Qed.

Lemma all_chars_weaken (P Q : ascii → bool) (s : string) :
  (∀ c, P c = true → Q c = true) → all_chars P s = true → all_chars Q s = true.
Proof.
  intros HPQ. induction s as [|c s IH]; [done|]. simpl.
  rewrite !andb_true_iff. intros [Hc Hs]. split; [by apply HPQ | by apply IH].
Qed.

Lemma pretty_N_char_digit x : is_digit (pretty_N_char x) = true.
Proof. unfold pretty_N_char. by repeat case_match. Qed.

Lemma pretty_N_go_digits x s :
  all_chars is_digit s = true → all_chars is_digit (pretty_N_go x s) = true.
Proof.
  revert s. induction (N.lt_wf_0 x) as [x _ IH]; intros s Hs.
  assert (x = 0 ∨ 0 < x)%N as [->|Hpos] by lia.
  - by rewrite pretty_N_go_0.
  - rewrite pretty_N_go_step by done. apply IH.
    + by apply N.div_lt.
    + simpl. by rewrite pretty_N_char_digit, Hs.
Qed.

Lemma pretty_N_digits (x : N) : all_chars is_digit (pretty x) = true.
Proof.
  unfold pretty, pretty_N. destruct (decide (x = 0)%N); [done|].
  by apply pretty_N_go_digits.
Qed.

(** The numeral of a number that is not negative has digits only. *)
Lemma str_int_digits n : (0 ≤ n)%Z → all_chars is_digit (str_int n) = true.
Proof.
  intros Hn. unfold str_int, pretty, pretty_Z. destruct n as [|p|p]; [done| |lia].
  apply (pretty_N_digits (Npos p)).
Qed.

(** A numeral has digits and, for a negative number, a leading dash. *)
Lemma str_int_no_bracket n : all_chars (λ c, negb (is_bracket c)) (str_int n) = true.
Proof.
  assert (∀ s, all_chars is_digit s = true →
               all_chars (λ c, negb (is_bracket c)) s = true) as Hd.
  { intros s. apply all_chars_weaken. intros c Hc.
    unfold is_bracket. apply negb_true_iff, bool_decide_eq_false. intros ->.
    by vm_compute in Hc. }
  unfold str_int, pretty, pretty_Z. destruct n as [|p|p]; [done|..].
  - apply Hd, (pretty_N_digits (Npos p)).
  - rewrite all_chars_append. apply andb_true_iff. split; [done|].
    apply Hd, (pretty_N_digits (Npos p)).
Qed.

(** A string is cut in one way only at its last occurrence of [c]. *)
Lemma split_at_last (c : ascii) (s1 s2 d1 d2 : string) :
  all_chars (λ x, negb (bool_decide (x = c))) d1 = true →
  all_chars (λ x, negb (bool_decide (x = c))) d2 = true →
  s1 +:+ String c d1 = s2 +:+ String c d2 → s1 = s2 ∧ d1 = d2.
Proof.
  intros H1 H2. revert s2.
  assert (∀ s d d', all_chars (λ x, negb (bool_decide (x = c))) d = true →
                    d ≠ s +:+ String c d') as Hno.
  { intros s d d' Hd E. rewrite E, all_chars_append in Hd. simpl in Hd.
    rewrite bool_decide_true in Hd by done. simpl in Hd.
    by rewrite andb_false_r in Hd. }
  induction s1 as [|a s1 IH]; intros [|b s2] E.
  - by injection E.
  - injection E as -> E. by destruct (Hno s2 d1 d2).
  - injection E as -> E. symmetry in E. by destruct (Hno s1 d2 d1).
  - rewrite !append_cons in E. injection E as -> E.
    destruct (IH _ E) as [-> ->]. done.
Qed.

(** A string is cut in one way only at its first occurrence of [c]. *)
Lemma split_at_first (c : ascii) (d1 d2 r1 r2 : string) :
  all_chars (λ x, negb (bool_decide (x = c))) d1 = true →
  all_chars (λ x, negb (bool_decide (x = c))) d2 = true →
  d1 +:+ String c r1 = d2 +:+ String c r2 → d1 = d2 ∧ r1 = r2.
Proof.
  revert d2. induction d1 as [|a d1 IH]; intros [|b d2] H1 H2 E.
  - by injection E.
  - rewrite append_cons in E. injection E as <- E. simpl in H2.
    by rewrite bool_decide_true in H2.
  - rewrite append_cons in E. injection E as -> E. simpl in H1.
    by rewrite bool_decide_true in H1.
  - rewrite !append_cons in E. injection E as -> E. simpl in H1, H2.
    apply andb_true_iff in H1 as [_ H1]. apply andb_true_iff in H2 as [_ H2].
    destruct (IH _ H1 H2 E) as [-> ->]. done.
Qed.

Lemma digits_no_dash s :
  all_chars is_digit s = true →
  all_chars (λ x, negb (bool_decide (x = "-"%char))) s = true.
Proof.
  apply all_chars_weaken. intros c Hc.
  apply negb_true_iff, bool_decide_eq_false. intros ->. by vm_compute in Hc.
Qed.

(** Qualified names are cut in one way only: equal qualified names have
    equal heads and equal numbers, for numbers that are not negative. *)
Lemma qualified_name_inj p q :
  (0 ≤ number p)%Z → (0 ≤ number q)%Z →
  qualified_name p = qualified_name q →
  headRefName p = headRefName q ∧ number p = number q.
Proof.
  intros Hp Hq E. unfold qualified_name in E.
  apply (split_at_last "-"%char) in E as [Hh Hn];
    [|by apply digits_no_dash, str_int_digits..].
  split; [done|]. by apply (inj pretty).
Qed.

(** ** Branch Namer, continued *)

Lemma count_head_perm h (l l' : list UpstreamPR) :
  l ≡ₚ l' → count_head h l = count_head h l'.
Proof. intros Hp. unfold count_head. by rewrite Hp. Qed.

Lemma get_branch_name_cases pr l :
  (shares_head l (headRefName pr) ∧ get_branch_name pr l = qualified_name pr)
  ∨ (¬ shares_head l (headRefName pr) ∧ get_branch_name pr l = headRefName pr).
Proof.
  unfold get_branch_name, qualified_name.
  destruct (decide (1 < count_head (headRefName pr) l)%nat) as [H|H];
    rewrite count_head_gt1 in H; [left|right]; done.
Qed.

Lemma unshared_head_unique (p q : UpstreamPR) l :
  p ∈ l → q ∈ l → headRefName p = headRefName q →
  ¬ shares_head l (headRefName p) →
  ∃ i : nat, l !! i = Some p ∧ l !! i = Some q.
Proof.
  intros Hp Hq Hh Hns.
  apply list_elem_of_lookup in Hp as [i Hi].
  apply list_elem_of_lookup in Hq as [j Hj].
  destruct (decide (i = j)) as [->|Hij]; [by exists j|].
  destruct Hns. exists i, j, p, q. by repeat split.
Qed.

(** A map is free of duplicates when it separates whatever a map free of
    duplicates separates. *)
Lemma NoDup_map_by {A B C} (g : A → C) (f : A → B) (l : list A) :
  NoDup (map g l) →
  (∀ p q, p ∈ l → q ∈ l → f p = f q → g p = g q) →
  NoDup (map f l).
Proof.
  induction l as [|x l IH]; intros Hnd Hinj; [constructor|].
  simpl in Hnd. apply NoDup_cons in Hnd as [Hx Hnd]. simpl. apply NoDup_cons. split.
  - intros (y & Ey & Hy)%elem_of_map. apply Hx, elem_of_map.
    exists y. split; [|done].
    apply Hinj; [apply list_elem_of_here | by apply list_elem_of_further | done].
  - apply IH; [done|]. intros p q Hp Hq.
    apply Hinj; by apply list_elem_of_further.
Qed.

(** X1. Pull requests of the list that share a head branch and have
    different numbers get different branch names. *)
Theorem shared_head_names_distinct (p q : UpstreamPR) (all_prs : list UpstreamPR) :
  p ∈ all_prs → q ∈ all_prs → headRefName p = headRefName q →
  number p ≠ number q →
  get_branch_name p all_prs ≠ get_branch_name q all_prs.
Proof.
  intros Hp Hq Hh Hn E. apply Hn.
  by apply (get_branch_name_same_head_inj p q all_prs).
Qed.

Lemma shared_head_names_distinct_witness :
  get_branch_name Sample.pr42 [Sample.pr42; Sample.pr43; Sample.pr44]
  ≠ get_branch_name Sample.pr43 [Sample.pr42; Sample.pr43; Sample.pr44].
Proof.
  apply (shared_head_names_distinct Sample.pr42 Sample.pr43).
  - apply list_elem_of_here.
  - apply list_elem_of_further, list_elem_of_here.
  - reflexivity.
  - cbn. lia.
Defined.

(** X2. The branch names of a list are pairwise distinct when the numbers
    are pairwise distinct and not negative, and no pull request with a head
    of its own has, as head branch, the qualified name of a pull request
    that shares its head. *)
Theorem branch_names_distinct (all_prs : list UpstreamPR) :
  NoDup (map number all_prs) →
  (∀ p, p ∈ all_prs → (0 ≤ number p)%Z) →
  no_cross_collision all_prs →
  NoDup (branch_names all_prs).
Proof.
  intros Hnd Hpos Hcross. unfold branch_names.
  assert (∀ p q, p ∈ all_prs → q ∈ all_prs →
            get_branch_name p all_prs = get_branch_name q all_prs →
            number p = number q) as Hinj.
  { intros p q Hp Hq E.
    destruct (get_branch_name_cases p all_prs) as [[Sp Ep]|[Sp Ep]],
             (get_branch_name_cases q all_prs) as [[Sq Eq]|[Sq Eq]];
      rewrite Ep, Eq in E.
    - apply qualified_name_inj in E as [_ ?]; auto.
    - destruct (Hcross p q Hp Hq Sp Sq). done.
    - destruct (Hcross q p Hq Hp Sq Sp). done.
    - destruct (unshared_head_unique p q all_prs Hp Hq E Sp) as (i & Hi & Hj).
      congruence. }
  by apply (NoDup_map_by number).
Qed.

Lemma branch_names_distinct_witness :
  NoDup (branch_names [Sample.pr42; Sample.pr43; Sample.pr44]).
Proof.
  apply branch_names_distinct.
  - cbn. compute_done.
  - intros p Hp. rewrite !elem_of_cons, elem_of_nil in Hp.
    destruct Hp as [->|[->|[->|[]]]]; cbn; lia.
  - intros p q Hp Hq _ Hq'. rewrite !elem_of_cons, elem_of_nil in Hp, Hq.
    assert (shares_head [Sample.pr42; Sample.pr43; Sample.pr44] "feature-x") as Hs.
    { exists 0%nat, 1%nat, Sample.pr42, Sample.pr43. by repeat split. }
    destruct Hq as [->|[->|[->|[]]]]; [by destruct Hq'..|].
    destruct Hp as [->|[->|[->|[]]]]; by vm_compute.
Defined.

(** X3. The branch name of a pull request does not depend on the order of
    the list it is named against: naming against the sorted list, which
    [sync_prs] iterates, gives the names computed against the fetched
    list. *)
Theorem get_branch_name_order_irrelevant (pr : UpstreamPR) (l l' : list UpstreamPR) :
  l ≡ₚ l' →
  get_branch_name pr l = get_branch_name pr l'
  ∧ get_branch_name pr (sorted_by_number l) = get_branch_name pr l.
Proof.
  intros Hp. unfold get_branch_name. split.
  - by rewrite (count_head_perm _ _ _ Hp).
  - by rewrite (count_head_perm _ _ _ (sorted_by_number_perm l)).
Qed.

Lemma get_branch_name_order_irrelevant_witness :
  get_branch_name Sample.pr42 [Sample.pr43; Sample.pr42]
  = get_branch_name Sample.pr42 [Sample.pr42; Sample.pr43].
Proof.
  apply (get_branch_name_order_irrelevant Sample.pr42
           [Sample.pr43; Sample.pr42] [Sample.pr42; Sample.pr43]).
  apply Permutation_swap.
Defined.

(** ** Order of processing *)

Lemma ascending_cons x (l : list UpstreamPR) :
  ascending (x :: l)
  ↔ Forall (λ b, (number x ≤ number b)%Z) l ∧ ascending l.
Proof.
  unfold ascending. split.
  - intros H. split.
    + apply Forall_forall. intros b [j Hj]%list_elem_of_lookup.
      apply (H 0%nat (S j) x b); [lia|done..].
    + intros i j a b Hij Hi Hj. apply (H (S i) (S j) a b); [lia|done..].
  - intros [Hx Hl] [|i] [|j] a b Hij Hi Hj; try lia; simplify_eq/=.
    + rewrite Forall_forall in Hx. apply Hx. by apply list_elem_of_lookup_2 with j.
    + apply (Hl i j a b); [lia|done..].
Qed.

Lemma insert_by_number_ascending x l :
  ascending l → ascending (insert_by_number x l).
Proof.
  induction l as [|y l IH]; intros Hl; simpl.
  - apply ascending_cons. split; [constructor | intros i j a b _ Hi; by destruct i].
  - destruct (bool_decide (number x ≤ number y)%Z) eqn:E.
    + apply bool_decide_eq_true in E. apply ascending_cons. split; [|done].
      apply ascending_cons in Hl as [Hy _]. constructor; [done|].
      eapply Forall_impl; [exact Hy|]. intros b Hb. simpl in Hb. lia.
    + apply bool_decide_eq_false in E. apply ascending_cons in Hl as [Hy Hl].
      apply ascending_cons. split; [|by apply IH].
      rewrite (insert_by_number_perm x l). constructor; [lia|done].
Qed.

Lemma with_number_insert n x l :
  with_number n (insert_by_number x l) = with_number n (x :: l).
Proof.
  unfold with_number. induction l as [|y l IH]; [done|]. simpl.
  destruct (bool_decide (number x ≤ number y)%Z) eqn:E; [done|].
  apply bool_decide_eq_false in E.
  rewrite (filter_cons _ y), IH, !filter_cons.
  destruct (decide (number y = n)), (decide (number x = n)); try done. lia.
Qed.

(** X4. [sync_prs] goes through the same pull requests as it fetched, in
    ascending order of their numbers, and pull requests with equal numbers
    keep the order of the fetched list. *)
Theorem sorted_by_number_ascending (upstream_prs : list UpstreamPR) :
  sorted_by_number upstream_prs ≡ₚ upstream_prs
  ∧ ascending (sorted_by_number upstream_prs)
  ∧ ∀ n, with_number n (sorted_by_number upstream_prs) = with_number n upstream_prs.
Proof.
  split; [apply sorted_by_number_perm|]. split.
  - induction upstream_prs as [|x l IH]; simpl.
    + intros i j a b _ Hi. by destruct i.
    + by apply insert_by_number_ascending.
  - intros n. induction upstream_prs as [|x l IH]; [done|]. simpl.
    rewrite with_number_insert. unfold with_number in *.
    by rewrite !filter_cons, IH.
Qed.

(** ** The index of fork PRs, continued *)

Lemma dict_lookup_set_eq {V} (k : string) (v : V) (d : pydict V) :
  dict_lookup k (dict_set k v d) = Some v.
Proof.
  induction d as [|[k0 v0] d IH]; cbn [dict_lookup dict_set].
  - by case_decide.
  - destruct (decide (k0 = k)) as [->|Hne]; cbn [dict_lookup]; by case_decide.
Qed.

Lemma dict_lookup_set_ne {V} (k k' : string) (v : V) (d : pydict V) :
  k ≠ k' → dict_lookup k' (dict_set k v d) = dict_lookup k' d.
Proof.
  intros Hne. induction d as [|[k0 v0] d IH]; cbn [dict_lookup dict_set].
  - by case_decide.
  - destruct (decide (k0 = k)) as [->|Hk0]; cbn [dict_lookup].
    + by repeat case_decide.
    + by case_decide.
Qed.

Lemma dict_set_keys {V} (k x : string) (v : V) (d : pydict V) :
  x ∈ map fst (dict_set k v d) ↔ x = k ∨ x ∈ map fst d.
Proof.
  induction d as [|[k0 v0] d IH]; cbn [dict_set map fst].
  - rewrite list_elem_of_singleton, elem_of_nil. tauto.
  - destruct (decide (k0 = k)) as [->|Hne]; cbn [map fst].
    + rewrite !elem_of_cons. tauto.
    + rewrite !elem_of_cons, IH. tauto.
Qed.

Lemma dict_set_NoDup {V} (k : string) (v : V) (d : pydict V) :
  NoDup (map fst d) → NoDup (map fst (dict_set k v d)).
Proof.
  induction d as [|[k0 v0] d IH]; cbn [dict_set map fst]; intros Hnd.
  - apply NoDup_singleton.
  - apply NoDup_cons in Hnd as [Hk0 Hnd].
    destruct (decide (k0 = k)) as [->|Hne]; cbn [map fst].
    + by apply NoDup_cons.
    + apply NoDup_cons. split; [|by apply IH].
      rewrite dict_set_keys. intros [?|?]; done.
Qed.

(** X5. The index of fork PRs has each head branch once as a key, and
    under a head branch it holds the last fork PR of the fetched list with
    that head branch; a head branch of no fork PR is not a key. *)
Theorem get_fork_prs_last_wins (prs : list MirrorPR) :
  NoDup (map fst (get_fork_prs prs))
  ∧ ∀ h, dict_lookup h (get_fork_prs prs) = last (with_head h prs).
Proof.
  unfold get_fork_prs. split.
  - generalize (NoDup_nil_2 (A := string)).
    change (@nil string) with (map fst (@nil (string * MirrorPR))).
    generalize (@nil (string * MirrorPR)).
    induction prs as [|x l IH]; intros d Hd; [done|]. simpl.
    by apply IH, dict_set_NoDup.
  - intros h.
    assert (∀ l (d : pydict MirrorPR),
      dict_lookup h (fold_left (λ d pr, dict_set (m_headRefName pr) pr d) l d)
      = match last (with_head h l) with
        | Some m => Some m
        | None => dict_lookup h d
        end) as Hgen.
    { induction l as [|x l IH]; intros d; [done|]. simpl. rewrite IH.
      unfold with_head. rewrite filter_cons.
      destruct (decide (m_headRefName x = h)) as [<-|Hne].
      - rewrite last_cons, dict_lookup_set_eq.
        by destruct (last _).
      - by rewrite dict_lookup_set_ne. }
    rewrite Hgen. by destruct (last _).
Qed.

(** ** Whitespace *)

Lemma lstrip_shape s :
  lstrip s = EmptyString ∨ ∃ c s', lstrip s = String c s' ∧ isspace c = false.
Proof.
  induction s as [|c s IH]; [by left|]. simpl.
  destruct (isspace c) eqn:E; [done|]. right. by exists c, s.
Qed.

Lemma rstrip_cons_nonspace c s :
  isspace c = false → rstrip (String c s) = String c (rstrip s).
Proof. intros E. simpl. rewrite E. by destruct (rstrip s). Qed.

Lemma rstrip_idemp s : rstrip (rstrip s) = rstrip s.
Proof.
  induction s as [|c s IH]; [done|]. simpl.
  destruct (rstrip s) as [|a r] eqn:E.
  - destruct (isspace c) eqn:Ec; [done|]. simpl. by rewrite Ec.
  - change (rstrip (String c (String a r))) with
      (match rstrip (String a r) with
       | EmptyString => if isspace c then EmptyString else String c EmptyString
       | r' => String c r'
       end).
    by rewrite IH.
Qed.

(** Stripping a stripped string changes nothing. *)
Lemma strip_idemp s : strip (strip s) = strip s.
Proof.
  unfold strip. destruct (lstrip_shape s) as [->|(c & s' & -> & Ec)]; [done|].
  rewrite (rstrip_cons_nonspace c s' Ec). simpl lstrip. rewrite Ec.
  rewrite <- (rstrip_cons_nonspace c s' Ec). apply rstrip_idemp.
Qed.

(** ** Commands of a computation *)

Section Issues.

Context {A B : Type} (P : command → Prop).

Lemma issues_ret (a : A) : issues P (mret a).
Proof. intros w h. exists []. by rewrite app_nil_r. Qed.

Lemma issues_raise (e : exn) : issues P (raise (A := A) e).
Proof. intros w h. exists []. by rewrite app_nil_r. Qed.

Lemma issues_bind (m : M A) (f : A → M B) :
  issues P m → (∀ a, issues P (f a)) → issues P (m ≫= f).
Proof.
  intros Hm Hf w h. rewrite bind_eq. destruct (Hm w h) as (i1 & E1 & F1).
  destruct (m w h) as [[a|e] h1]; simpl in E1; subst h1.
  - destruct (Hf a w (h ++ i1)) as (i2 & E2 & F2). exists (i1 ++ i2).
    rewrite E2, app_assoc. split; [done|]. by apply Forall_app.
  - by exists i1.
Qed.

Lemma issues_try_except (m : M A) (handler : exn → M A) :
  issues P m → (∀ e, issues P (handler e)) → issues P (try_except m handler).
Proof.
  intros Hm Hf w h. rewrite try_except_eq. destruct (Hm w h) as (i1 & E1 & F1).
  destruct (m w h) as [[a|e] h1]; simpl in E1; subst h1.
  - by exists i1.
  - destruct (Hf e w (h ++ i1)) as (i2 & E2 & F2). exists (i1 ++ i2).
    rewrite E2, app_assoc. split; [done|]. by apply Forall_app.
Qed.

Lemma issues_run_cmd cmd capture check :
  P cmd → issues P (run_cmd cmd capture check).
Proof.
  intros Hc w h. exists [cmd]. split; [apply run_cmd_history|].
  by constructor.
Qed.

End Issues.

(** Takes a computation of the script apart, leaving the commands it runs
    and the functions it calls to [leaf]. *)
Ltac issues_with leaf :=
  repeat first
    [ apply issues_ret
    | apply issues_raise
    | leaf
    | apply issues_bind; [|intros ?]
    | apply issues_try_except; [|intros ?]
    | match goal with
      | |- issues _ (match ?x with _ => _ end) => destruct x
      end ].

Lemma issues_update_pr_metadata (P : command → Prop) n t b U F d fd id :
  P (GhPrEdit n t b) →
  P (GhPrAddLabel n (labels_to_add U F)) →
  P (GhPrRemoveLabel n (labels_to_remove U F)) →
  P (GhConvertToDraft (str_opt id)) → P (GhPrReady n) →
  issues P (update_pr_metadata n t b U F d fd id).
Proof.
  intros. unfold update_pr_metadata, sync_labels, convert_pr_to_draft,
    mark_pr_ready, run_gh.
  issues_with ltac:(apply issues_run_cmd; assumption).
Qed.

Lemma issues_ensure_base_branch_exists (P : command → Prop) base :
  P (GitLsRemoteHeads base) → P (GitFetchBase base) → P (GitPush base false) →
  issues P (ensure_base_branch_exists base).
Proof.
  intros. unfold ensure_base_branch_exists, branch_exists_on_origin.
  issues_with ltac:(apply issues_run_cmd; assumption).
Qed.

(** Per-PR processing closes nothing. *)
Lemma issues_create_or_update_pr_no_close pr branch_name fork_prs :
  issues (λ c, is_close c = false) (create_or_update_pr pr branch_name fork_prs).
Proof.
  unfold create_or_update_pr, get_label_names.
  issues_with ltac:(first [ apply issues_run_cmd; reflexivity
    | apply issues_update_pr_metadata; reflexivity
    | apply issues_ensure_base_branch_exists; reflexivity ]).
Qed.

Lemma issues_process_prs_no_close up fork_prs todo st :
  issues (λ c, is_close c = false) (process_prs up fork_prs todo st).
Proof.
  revert st. induction todo as [|pr todo IH]; intros st; simpl.
  - apply issues_ret.
  - apply issues_bind; [apply issues_create_or_update_pr_no_close|].
    intros r. apply IH.
Qed.

(** ** Base branch *)

Lemma branch_exists_on_origin_eq branch w h :
  branch_exists_on_origin branch w h
  = match w h (GitLsRemoteHeads branch) with
    | Exited _ _ => (Return (branch_listed w h branch), h ++ [GitLsRemoteHeads branch])
    | NotStarted => (Raise OSError, h ++ [GitLsRemoteHeads branch])
    end.
Proof.
  unfold branch_exists_on_origin, branch_listed. rewrite bind_eq.
  destruct (w h (GitLsRemoteHeads branch)) as [rc out|] eqn:E.
  - rewrite (run_cmd_unchecked _ _ _ _ _ _ E). cbn [mret M_ret]. do 2 f_equal.
    rewrite strip_idemp. destruct (strip out) eqn:Es.
    + by rewrite bool_decide_false by (intros H; by apply H).
    + by rewrite bool_decide_true.
  - by rewrite (run_cmd_not_started _ _ _ _ _ E).
Qed.

Lemma ensure_base_branch_exists_eq (base_ref : string) (w : world) (h : history) :
  let ls := GitLsRemoteHeads base_ref in
  let fetch := GitFetchBase base_ref in
  let push := GitPush base_ref false in
  ensure_base_branch_exists base_ref w h
  = match w h ls with
    | NotStarted => (Raise OSError, h ++ [ls])
    | Exited _ _ =>
        if branch_listed w h base_ref then (Return true, h ++ [ls])
        else if succeeds w (h ++ [ls]) fetch
        then (Return (succeeds w (h ++ [ls; fetch]) push), h ++ [ls; fetch; push])
        else (Return false, h ++ [ls; fetch])
    end.
Proof.
  intros ls fetch push. unfold ensure_base_branch_exists.
  rewrite bind_eq, branch_exists_on_origin_eq. fold ls.
  destruct (w h ls) as [rc out|]; [|done].
  destruct (branch_listed w h base_ref); [done|].
  rewrite try_except_eq, bind_eq. fold fetch.
  rewrite (run_cmd_checked fetch).
  destruct (succeeds w (h ++ [ls]) fetch); [|by rewrite <- app_assoc].
  rewrite bind_eq. fold push. rewrite (run_cmd_checked push), <- !app_assoc.
  simpl (_ ++ _). by destruct (succeeds w (h ++ [ls; fetch]) push).
Qed.

(** X6. [ensure_base_branch_exists] lists the branch first.  When the
    listing is not empty it returns [True] and issues nothing else, whatever
    the exit code of the listing.  Otherwise it fetches the branch from
    upstream and, when the fetch exits with code 0, pushes it; it returns
    [True] exactly when both exit with code 0, and no failure of the fetch
    or the push escapes as an exception.  Only a listing that cannot be
    started raises. *)
Theorem ensure_base_branch_exists_outcome (base_ref : string) (w : world) (h : history) :
  let ls := GitLsRemoteHeads base_ref in
  let fetch := GitFetchBase base_ref in
  let push := GitPush base_ref false in
  ensure_base_branch_exists base_ref w h
  = match w h ls with
    | NotStarted => (Raise OSError, h ++ [ls])
    | Exited _ _ =>
        if branch_listed w h base_ref then (Return true, h ++ [ls])
        else if succeeds w (h ++ [ls]) fetch
        then (Return (succeeds w (h ++ [ls; fetch]) push), h ++ [ls; fetch; push])
        else (Return false, h ++ [ls; fetch])
    end.
Proof. apply ensure_base_branch_exists_eq. Qed.

(** ** The Create path *)

Lemma create_path_eq (pr : UpstreamPR) (branch_name : string)
    (fork_prs : pydict MirrorPR) (uls : list Label) (w : world) (h h1 : history)
    (base_ok : bool) :
  dict_lookup branch_name fork_prs = None →
  dict_get_default (labels pr) [] = Some uls →
  ensure_base_branch_exists (baseRefName pr) w h = (Return base_ok, h1) →
  let fetch := GitFetchPull (number pr) branch_name false in
  let push := GitPush branch_name false in
  let create := create_command pr branch_name (map name uls) in
  create_or_update_pr pr branch_name fork_prs w h
  = if base_ok
    then if succeeds w h1 fetch
         then if succeeds w (h1 ++ [fetch]) push
              then (Return (if succeeds w (h1 ++ [fetch; push]) create
                            then Created else Failed),
                    h1 ++ [fetch; push; create])
              else (Return Failed, h1 ++ [fetch; push])
         else (Return Failed, h1 ++ [fetch])
    else (Return Failed, h1).
Proof.
  intros Hlookup Huls Hbase fetch push create. unfold create_or_update_pr.
  rewrite (bind_return _ _ _ _ _ _ (get_label_names_Some _ _ w h Huls)).
  rewrite Hlookup, (bind_return _ _ _ _ _ _ Hbase).
  destruct base_ok; [|done]. cbn [negb].
  rewrite bind_eq, try_except_eq, bind_eq. fold fetch.
  rewrite (run_cmd_checked fetch).
  destruct (succeeds w h1 fetch); [|done].
  rewrite bind_eq. fold push. rewrite (run_cmd_checked push), <- !app_assoc.
  simpl (_ ++ _).
  destruct (succeeds w (h1 ++ [fetch]) push); [|done].
  cbn [mret M_ret negb]. rewrite try_except_eq, bind_eq. unfold run_gh.
  fold (expected_body pr). fold (create_command pr branch_name (map name uls)).
  fold create. rewrite (run_cmd_checked create), <- !app_assoc. simpl (_ ++ _).
  by destruct (succeeds w (h1 ++ [fetch; push]) create).
Qed.

(** X7. For a pull request without a mirror under its branch name, once
    the base branch step has returned: when the base branch is not
    available the result is [Failed] and nothing further is issued;
    otherwise the pull request head is fetched and pushed without
    [--force], a failure of either gives [Failed] without a [gh pr create],
    and after both the mirror is created with the branch name as head, the
    upstream base and title, the expected body, the upstream labels and the
    upstream draft flag; the result is [Created] exactly when that command
    exits with code 0. *)
Theorem create_path (pr : UpstreamPR) (branch_name : string)
    (fork_prs : pydict MirrorPR) (uls : list Label) (w : world) (h h1 : history)
    (base_ok : bool) :
  dict_lookup branch_name fork_prs = None →
  dict_get_default (labels pr) [] = Some uls →
  ensure_base_branch_exists (baseRefName pr) w h = (Return base_ok, h1) →
  let fetch := GitFetchPull (number pr) branch_name false in
  let push := GitPush branch_name false in
  let create := create_command pr branch_name (map name uls) in
  create_or_update_pr pr branch_name fork_prs w h
  = if base_ok
    then if succeeds w h1 fetch
         then if succeeds w (h1 ++ [fetch]) push
              then (Return (if succeeds w (h1 ++ [fetch; push]) create
                            then Created else Failed),
                    h1 ++ [fetch; push; create])
              else (Return Failed, h1 ++ [fetch; push])
         else (Return Failed, h1 ++ [fetch])
    else (Return Failed, h1).
Proof. apply create_path_eq. Qed.

Lemma create_path_witness :
  create_or_update_pr Sample.pr42 "feature-x" [] Sample.all_succeed []
  = (Return Created,
     [GitLsRemoteHeads "main"; GitFetchBase "main"; GitPush "main" false]
     ++ [GitFetchPull 42 "feature-x" false; GitPush "feature-x" false;
         create_command Sample.pr42 "feature-x" ["bug"]]).
Proof.
  apply (create_path Sample.pr42 "feature-x" [] [Build_Label "bug"]
           Sample.all_succeed [] _ true); reflexivity.
Defined.

(** ** Exceptions of per-PR processing *)

Lemma per_pr_returns (pr : UpstreamPR) (branch_name : string)
    (fork_prs : pydict MirrorPR) (w : world) (h : history) :
  is_Some (label_set (labels pr)) →
  (∀ m, dict_lookup branch_name fork_prs = Some m → is_Some (label_set (m_labels m))) →
  (dict_lookup branch_name fork_prs = None →
   w h (GitLsRemoteHeads (baseRefName pr)) ≠ NotStarted) →
  ∃ r h', create_or_update_pr pr branch_name fork_prs w h = (Return r, h').
Proof.
  intros [S HS] Hm Hls. apply label_set_Some in HS as (uls & Huls & _).
  destruct (dict_lookup branch_name fork_prs) as [m|] eqn:Hlookup.
  - destruct (Hm m eq_refl) as [S' HS'].
    apply label_set_Some in HS' as (fls & Hfls & _).
    destruct (decide (dict_get_default (m_headRefOid m) EmptyString
                      = Some (headRefOid pr))) as [Htip|Htip].
    + rewrite (create_or_update_pr_same_tip pr branch_name fork_prs m uls fls
                 Hlookup Huls Hfls w h Htip).
      destruct (metadata_test pr m uls fls); eauto.
    + rewrite (create_or_update_pr_new_tip pr branch_name fork_prs m uls fls
                 Hlookup Huls Hfls w h Htip).
      cbv zeta. destruct (succeeds w h _); [|eauto].
      destruct (succeeds w (h ++ _) _); eauto.
  - specialize (Hls eq_refl).
    pose proof (ensure_base_branch_exists_eq (baseRefName pr) w h) as Hb.
    cbv zeta in Hb.
    destruct (w h (GitLsRemoteHeads (baseRefName pr))) as [rc out|]; [|done].
    assert (∃ ok h1, ensure_base_branch_exists (baseRefName pr) w h
                     = (Return ok, h1)) as (ok & h1 & Hok).
    { rewrite Hb. destruct (branch_listed w h _); [eauto|].
      destruct (succeeds w (h ++ _) _); eauto. }
    rewrite (create_path_eq pr branch_name fork_prs uls w h h1 ok Hlookup Huls Hok).
    destruct ok; [|eauto].
    destruct (succeeds w h1 _); [|eauto].
    destruct (succeeds w (h1 ++ _) _); eauto.
Qed.

(** X8. Per-PR processing returns one of its four results, and no
    exception escapes it, when the [labels] key of the pull request and of
    its mirror (if any) is not [null] and, for a pull request without
    mirror, the branch listing can be started: every failure of a fetch, a
    push, an edit or a create is caught. *)
Theorem create_or_update_pr_returns (pr : UpstreamPR) (branch_name : string)
    (fork_prs : pydict MirrorPR) (w : world) (h : history) :
  is_Some (label_set (labels pr)) →
  (∀ m, dict_lookup branch_name fork_prs = Some m → is_Some (label_set (m_labels m))) →
  (dict_lookup branch_name fork_prs = None →
   w h (GitLsRemoteHeads (baseRefName pr)) ≠ NotStarted) →
  ∃ r h', create_or_update_pr pr branch_name fork_prs w h = (Return r, h').
Proof. apply per_pr_returns. Qed.

Lemma create_or_update_pr_returns_witness :
  ∃ r h', create_or_update_pr Sample.pr42 "feature-x"
            (get_fork_prs [Sample.mirror42_old]) Sample.all_fail []
          = (Return r, h').
Proof.
  apply create_or_update_pr_returns.
  - by eexists.
  - intros m [= <-]. by eexists.
  - intros H. vm_compute in H. discriminate.
Defined.

(** ** Metadata update *)

(** X9. When the title and body edit does not exit with code 0, the
    metadata update returns [False] and issues neither a label command nor
    a draft command. *)
Theorem update_pr_metadata_edit_failure (fork_pr_num : Z) (new_title new_body : string)
    (U F : list string) (is_draft fork_is_draft : option bool)
    (pr_node_id : option string) (w : world) (h : history) :
  succeeds w h (GhPrEdit fork_pr_num new_title new_body) = false →
  update_pr_metadata fork_pr_num new_title new_body U F is_draft fork_is_draft
    pr_node_id w h
  = (Return false, h ++ [GhPrEdit fork_pr_num new_title new_body]).
Proof.
  intros Hedit. unfold update_pr_metadata, run_gh.
  rewrite try_except_eq, bind_eq, run_cmd_checked, Hedit. done.
Qed.

Lemma update_pr_metadata_edit_failure_witness :
  update_pr_metadata 7 "Add X" "body" ["bug"] [] (Some true) (Some false)
    (Some "PR_node") Sample.all_fail []
  = (Return false, [] ++ [GhPrEdit 7 "Add X" "body"]).
Proof. apply update_pr_metadata_edit_failure. reflexivity. Defined.

Lemma draft_step_history n d fd id w h :
  starts w →
  ∃ u, (if truthy d && negb (truthy fd)
        then convert_pr_to_draft (str_opt id);; mret ()
        else if negb (truthy d) && truthy fd
        then mark_pr_ready n;; mret ()
        else mret ()) w h
       = (Return u, h ++ draft_commands n d fd id).
Proof.
  intros Hw. unfold draft_commands, convert_pr_to_draft, mark_pr_ready, run_gh.
  assert (∀ c, ∃ b, try_except (run_cmd c true true;; mret true)
                                (λ _, mret false) w h = (Return b, h ++ [c])) as Hrun.
  { intros c. rewrite try_except_eq, bind_eq, run_cmd_checked.
    destruct (succeeds w h c); eauto. }
  destruct (truthy d && negb (truthy fd)).
  - rewrite bind_eq. destruct (Hrun (GhConvertToDraft (str_opt id))) as [b ->]. eauto.
  - destruct (negb (truthy d) && truthy fd).
    + rewrite bind_eq. destruct (Hrun (GhPrReady n)) as [b ->]. eauto.
    + exists (). by rewrite app_nil_r.
Qed.

Lemma sync_labels_returns n U F w h :
  starts w → sync_labels n U F w h = (Return (), h ++ label_commands n U F).
Proof.
  intros Hw. pose proof (sync_labels_history n U F w h Hw) as Hh.
  assert (∃ u h', sync_labels n U F w h = (Return u, h')) as (u & h' & E).
  { unfold sync_labels, run_gh.
    assert (∀ c h0, ∃ o, run_cmd c true false w h0 = (Return o, h0 ++ [c])) as Hrun.
    { intros c h0. specialize (Hw h0 c).
      destruct (w h0 c) as [rc out|] eqn:E; [|done].
      eexists. by apply run_cmd_unchecked with (rc := rc). }
    rewrite bind_eq. destruct (bool_decide (labels_to_add U F ≠ ∅)).
    - rewrite bind_eq. destruct (Hrun (GhPrAddLabel n (labels_to_add U F)) h) as [o ->].
      cbn [mret M_ret]. destruct (bool_decide (labels_to_remove U F ≠ ∅)); [|eauto].
      rewrite bind_eq.
      destruct (Hrun (GhPrRemoveLabel n (labels_to_remove U F))
                  (h ++ [GhPrAddLabel n (labels_to_add U F)])) as [o' ->]. eauto.
    - cbn [mret M_ret]. destruct (bool_decide (labels_to_remove U F ≠ ∅)); [|eauto].
      rewrite bind_eq.
      destruct (Hrun (GhPrRemoveLabel n (labels_to_remove U F)) h) as [o' ->]. eauto. }
  rewrite E in Hh. simpl in Hh. subst h'. by destruct u.
Qed.

(** X10. When the title and body edit exits with code 0 and [gh] can be
    started, the metadata update returns [True] whatever the exit codes of
    the label and draft commands, and it issues, after the edit, the label
    commands and then at most one draft command: the conversion to draft
    when upstream is a draft and the mirror is not, the ready mark when the
    mirror is a draft and upstream is not. *)
Theorem update_pr_metadata_best_effort (fork_pr_num : Z) (new_title new_body : string)
    (U F : list string) (is_draft fork_is_draft : option bool)
    (pr_node_id : option string) (w : world) (h : history) :
  starts w →
  succeeds w h (GhPrEdit fork_pr_num new_title new_body) = true →
  update_pr_metadata fork_pr_num new_title new_body U F is_draft fork_is_draft
    pr_node_id w h
  = (Return true,
     h ++ [GhPrEdit fork_pr_num new_title new_body]
       ++ label_commands fork_pr_num U F
       ++ draft_commands fork_pr_num is_draft fork_is_draft pr_node_id).
Proof.
  intros Hw Hedit. unfold update_pr_metadata, run_gh.
  rewrite try_except_eq, bind_eq, run_cmd_checked, Hedit.
  rewrite bind_eq, (sync_labels_returns _ _ _ _ _ Hw), bind_eq.
  destruct (draft_step_history fork_pr_num is_draft fork_is_draft pr_node_id w
              ((h ++ [GhPrEdit fork_pr_num new_title new_body])
                 ++ label_commands fork_pr_num U F) Hw) as [u ->].
  cbn [mret M_ret]. by rewrite <- !app_assoc.
Qed.

Lemma update_pr_metadata_best_effort_witness :
  update_pr_metadata 7 "Add X" "body" ["bug"] [] (Some true) (Some false)
    (Some "PR_node") edit_only []
  = (Return true,
     [] ++ [GhPrEdit 7 "Add X" "body"]
        ++ label_commands 7 ["bug"] []
        ++ draft_commands 7 (Some true) (Some false) (Some "PR_node")).
Proof.
  apply update_pr_metadata_best_effort.
  - intros h c. unfold edit_only. by destruct c.
  - reflexivity.
Defined.

(** X11. The label sync issues no command exactly when the two lists have
    the same set of labels, whatever their order and repetitions. *)
Theorem sync_labels_silent_iff (fork_pr_num : Z) (U F : list string)
    (w : world) (h : history) :
  (sync_labels fork_pr_num U F w h).2 = h
  ↔ list_to_set U =@{gset string} list_to_set F.
Proof.
  assert (labels_to_add U F = ∅ ∧ labels_to_remove U F = ∅
          ↔ list_to_set U =@{gset string} list_to_set F) as Hsets.
  { unfold labels_to_add, labels_to_remove. split.
    - intros [Ha Hr]. apply set_eq. intros x.
      assert (x ∉ list_to_set (C := gset string) U ∖ list_to_set F) as H1
        by (rewrite Ha; apply not_elem_of_empty).
      assert (x ∉ list_to_set (C := gset string) F ∖ list_to_set U) as H2
        by (rewrite Hr; apply not_elem_of_empty).
      rewrite elem_of_difference in H1, H2.
      destruct (decide (x ∈ list_to_set (C := gset string) U)),
               (decide (x ∈ list_to_set (C := gset string) F)); tauto.
    - intros ->. split; apply set_eq; intros x;
        rewrite elem_of_difference, elem_of_empty; tauto. }
  assert (∀ c rest, h ++ c :: rest ≠ h) as Hgrow.
  { intros c rest E. apply (f_equal length) in E.
    rewrite length_app in E. simpl in E. lia. }
  unfold sync_labels, run_gh. rewrite <- Hsets. rewrite bind_eq.
  destruct (bool_decide (labels_to_add U F ≠ ∅)) eqn:Ea.
  - apply bool_decide_eq_true in Ea. split; [|tauto]. intros Hh. exfalso.
    rewrite bind_eq in Hh.
    pose proof (run_cmd_history (GhPrAddLabel fork_pr_num (labels_to_add U F))
                  true false w h) as Hc.
    destruct (run_cmd _ true false w h) as [[o|e] h1]; simpl in Hc; subst h1.
    + cbn [mret M_ret] in Hh.
      destruct (bool_decide (labels_to_remove U F ≠ ∅)).
      * rewrite bind_eq in Hh.
        pose proof (run_cmd_history
                      (GhPrRemoveLabel fork_pr_num (labels_to_remove U F))
                      true false w (h ++ [GhPrAddLabel fork_pr_num (labels_to_add U F)]))
          as Hc.
        destruct (run_cmd _ true false w (h ++ _)) as [[o'|e'] h2];
          simpl in Hc, Hh; rewrite Hc, <- app_assoc in Hh;
          by apply Hgrow in Hh.
      * simpl in Hh. by apply Hgrow in Hh.
    + simpl in Hh. by apply Hgrow in Hh.
  - apply bool_decide_eq_false in Ea. apply dec_stable in Ea.
    cbn [mret M_ret]. destruct (bool_decide (labels_to_remove U F ≠ ∅)) eqn:Er.
    + apply bool_decide_eq_true in Er. split; [|tauto]. intros Hh. exfalso.
      rewrite bind_eq in Hh.
      pose proof (run_cmd_history
                    (GhPrRemoveLabel fork_pr_num (labels_to_remove U F))
                    true false w h) as Hc.
      destruct (run_cmd _ true false w h) as [[o'|e'] h2];
        simpl in Hc, Hh; rewrite Hc in Hh; by apply Hgrow in Hh.
    + apply bool_decide_eq_false in Er. apply dec_stable in Er. done.
Qed.

(** ** Branch update alone *)

(** X12. For a mirror whose tip differs and whose metadata is in sync,
    processing issues the forced fetch and the forced push and no [gh]
    command; the result is [Updated] when both exit with code 0 and
    [Failed] otherwise, nothing being pushed after a failed fetch. *)
Theorem branch_update_alone (pr : UpstreamPR) (branch_name : string)
    (fork_prs : pydict MirrorPR) (m : MirrorPR) (w : world) (h : history) :
  dict_lookup branch_name fork_prs = Some m →
  is_Some (label_set (labels pr)) → is_Some (label_set (m_labels m)) →
  ¬ same_tip pr m → ¬ metadata_differs pr m →
  let fetch := fetch_forced pr branch_name in
  let push := push_forced branch_name in
  create_or_update_pr pr branch_name fork_prs w h
  = if succeeds w h fetch
    then if succeeds w (h ++ [fetch]) push
         then (Return Updated, h ++ [fetch; push])
         else (Return Failed, h ++ [fetch; push])
    else (Return Failed, h ++ [fetch]).
Proof.
  intros Hlookup [S HS] [S' HS'] Htip Hsame fetch push.
  apply label_set_Some in HS as (uls & Huls & _).
  apply label_set_Some in HS' as (fls & Hfls & _).
  rewrite (create_or_update_pr_new_tip pr branch_name fork_prs m uls fls
             Hlookup Huls Hfls w h Htip).
  assert (metadata_test pr m uls fls = false) as ->; [|done].
  apply not_true_iff_false. intros E. apply Hsame.
  by apply (changed_iff pr m uls fls Huls Hfls).
Qed.

Lemma branch_update_alone_witness :
  create_or_update_pr Sample.pr42 "feature-x"
    (get_fork_prs [Sample.mirror 7 "feature-x" "abc123" "Add X"
                     (build_pr_body 42 "alice" "Adds X.") ["bug"] false])
    Sample.all_succeed []
  = (Return Updated,
     [] ++ [fetch_forced Sample.pr42 "feature-x"; push_forced "feature-x"]).
Proof.
  apply (branch_update_alone Sample.pr42 "feature-x" _
           (Sample.mirror 7 "feature-x" "abc123" "Add X"
              (build_pr_body 42 "alice" "Adds X.") ["bug"] false)
           Sample.all_succeed []).
  - reflexivity.
  - by eexists.
  - by eexists.
  - by vm_compute.
  - intros H. apply H. repeat split; reflexivity.
Defined.

(** ** The labels key *)

(** X13. A pull request without [labels] key is processed as one with an
    empty list of labels.  A [labels] key that holds [null], on the pull
    request or on its mirror, raises [TypeError] before any command is
    issued. *)
Theorem labels_key_absent_or_null (pr : UpstreamPR) (branch_name : string)
    (fork_prs : pydict MirrorPR) (w : world) (h : history) :
  (labels pr = Absent →
   create_or_update_pr pr branch_name fork_prs
   = create_or_update_pr (with_labels pr (Val [])) branch_name fork_prs)
  ∧ (labels pr = Null →
     create_or_update_pr pr branch_name fork_prs w h = (Raise TypeError, h))
  ∧ (∀ m, is_Some (label_set (labels pr)) →
          dict_lookup branch_name fork_prs = Some m → m_labels m = Null →
          create_or_update_pr pr branch_name fork_prs w h = (Raise TypeError, h)).
Proof.
  split; [|split].
  - intros Ha. unfold create_or_update_pr.
    cbn [with_labels number title baseRefName headRefName headRefOid body
         author_login labels isDraft].
    by rewrite Ha.
  - intros Hn. unfold create_or_update_pr, get_label_names. by rewrite Hn.
  - intros m [S HS] Hlookup Hn. apply label_set_Some in HS as (uls & Huls & _).
    unfold create_or_update_pr.
    rewrite (bind_return _ _ _ _ _ _ (get_label_names_Some _ _ w h Huls)).
    rewrite Hlookup. unfold get_label_names. by rewrite Hn.
Qed.

Lemma labels_key_absent_or_null_witness :
  create_or_update_pr (with_labels Sample.pr42 Null) "feature-x"
    (get_fork_prs [Sample.mirror42]) Sample.all_succeed []
  = (Raise TypeError, []).
Proof.
  destruct (labels_key_absent_or_null (with_labels Sample.pr42 Null) "feature-x"
              (get_fork_prs [Sample.mirror42]) Sample.all_succeed [])
    as (_ & Hnull & _).
  apply Hnull. reflexivity.
Defined.

(** ** The number in the expected body *)

(** X14. The expected mirror body determines the upstream number: the
    bodies built for two different numbers differ, whatever the authors and
    the upstream bodies. *)
Theorem build_pr_body_number_inj (N N' : Z) (A A' B B' : string) :
  N ≠ N' → build_pr_body N A B ≠ build_pr_body N' A' B'.
Proof.
  intros Hne E. apply Hne. unfold build_pr_body in E.
  repeat apply (inj (String.append _)) in E.
  change ("](https://github.com/" +:+ ?r) with
    (String "]" ("(https://github.com/" +:+ r)) in E.
  apply (split_at_first "]"%char) in E as [E _].
  - by apply (inj pretty) in E.
  - apply (str_int_no_bracket N).
  - apply (str_int_no_bracket N').
Qed.

Lemma build_pr_body_number_inj_witness :
  build_pr_body 42 "alice" "Adds X." ≠ build_pr_body 43 "bob" "Adds X.".
Proof. apply build_pr_body_number_inj. lia. Defined.

(** ** Counters of a run *)

Lemma tally_sum st r :
  (created (tally st r) + updated (tally st r) + unchanged (tally st r)
   + failed (tally st r) = created st + updated st + unchanged st + failed st + 1)%Z
  ∧ (created st ≤ created (tally st r))%Z ∧ (updated st ≤ updated (tally st r))%Z
  ∧ (unchanged st ≤ unchanged (tally st r))%Z ∧ (failed st ≤ failed (tally st r))%Z.
Proof. destruct r; simpl; lia. Qed.

Lemma process_prs_tallies up fork_prs todo st w h st' h' :
  process_prs up fork_prs todo st w h = (Return st', h') →
  (created st' + updated st' + unchanged st' + failed st'
   = created st + updated st + unchanged st + failed st + Z.of_nat (length todo))%Z
  ∧ (created st ≤ created st')%Z ∧ (updated st ≤ updated st')%Z
  ∧ (unchanged st ≤ unchanged st')%Z ∧ (failed st ≤ failed st')%Z.
Proof.
  revert st h. induction todo as [|pr todo IH]; intros st h.
  - intros [= <- <-]. simpl. lia.
  - simpl process_prs. rewrite bind_eq.
    destruct (create_or_update_pr _ _ _ w h) as [[r|e] h1]; [|done].
    intros Hrest. apply IH in Hrest.
    pose proof (tally_sum (add_branch st (get_branch_name pr up)) r) as Ht.
    simpl in Ht. simpl length. lia.
Qed.

(** A run that returns went through its main loop and its sweep. *)
Lemma sync_prs_summary_inv up fork_prs w s h :
  run (sync_prs_summary up fork_prs) w = (Return s, h) →
  ∃ st h1 closed,
    process_prs up fork_prs (sorted_by_number up) initial_state w [] = (Return st, h1)
    ∧ close_stale_prs (upstream_branches st) fork_prs w h1 = (Return closed, h)
    ∧ s = {| s_created := created st; s_updated := updated st;
             s_unchanged := unchanged st; s_closed := closed;
             s_failed := failed st |}.
Proof.
  unfold run, sync_prs_summary. rewrite bind_eq.
  destruct (process_prs _ _ _ _ w []) as [[st|e] h1] eqn:Hloop; [|done].
  rewrite bind_eq.
  destruct (close_stale_prs _ _ w h1) as [[closed|e] h2] eqn:Hclose; [|done].
  intros [= <- <-]. by exists st, h1, closed.
Qed.

(** X15. In a run that returns, every upstream pull request is counted
    exactly once: created, updated, unchanged and failed are not negative
    and add up to the number of upstream pull requests, and closed is
    between 0 and the number of fork PRs of the index. *)
Theorem summary_counts_every_pr (upstream_prs : list UpstreamPR)
    (fork_prs : pydict MirrorPR) (w : world) (s : summary) (h : history) :
  run (sync_prs_summary upstream_prs fork_prs) w = (Return s, h) →
  (s_created s + s_updated s + s_unchanged s + s_failed s
   = Z.of_nat (length upstream_prs))%Z
  ∧ (0 ≤ s_created s)%Z ∧ (0 ≤ s_updated s)%Z ∧ (0 ≤ s_unchanged s)%Z
  ∧ (0 ≤ s_failed s)%Z
  ∧ (0 ≤ s_closed s ≤ Z.of_nat (length fork_prs))%Z.
Proof.
  intros (st & h1 & closed & Hloop & Hclose & ->)%sync_prs_summary_inv.
  apply process_prs_tallies in Hloop.
  rewrite (Permutation_length (sorted_by_number_perm upstream_prs)) in Hloop.
  destruct (close_stale_loop_spec (upstream_branches st) fork_prs 0 w h1)
    as (closed' & Hclose' & Hbound & _).
  unfold close_stale_prs in Hclose. rewrite Hclose' in Hclose.
  injection Hclose as -> _.
  assert (length (stale_prs (upstream_branches st) fork_prs) ≤ length fork_prs)%nat.
  { unfold stale_prs. rewrite length_map. apply length_filter. }
  simpl in *. lia.
Qed.

Lemma summary_counts_every_pr_witness :
  ∃ s h,
    run (sync_prs_summary [Sample.pr42; Sample.pr44]
           (get_fork_prs [Sample.mirror42_old; Sample.mirror_gone]))
        Sample.all_fail = (Return s, h)
    ∧ (s_created s + s_updated s + s_unchanged s + s_failed s = 2)%Z.
Proof.
  destruct (run (sync_prs_summary [Sample.pr42; Sample.pr44]
                   (get_fork_prs [Sample.mirror42_old; Sample.mirror_gone]))
                Sample.all_fail) as [r h] eqn:E.
  destruct r as [s|e]; [|by vm_compute in E].
  exists s, h. split; [reflexivity|].
  by destruct (summary_counts_every_pr _ _ _ _ _ E) as [Hsum _].
Defined.

(** ** Completion of a run *)




(** ** An empty upstream list *)

Lemma stale_prs_empty (fork_prs : pydict MirrorPR) :
  stale_prs ∅ fork_prs = map snd fork_prs.
Proof.
  unfold stale_prs. induction fork_prs as [|[k m] l IH]; [done|].
  rewrite filter_cons_True by apply not_elem_of_empty. simpl. by rewrite IH.
Qed.

(** X17. With no open upstream pull request, the run issues one close for
    every fork PR of the index, in the order of the index, and nothing
    else; nothing is created, updated, unchanged or failed, and the exit
    code is 0 whatever the outcome of the closes. *)
Theorem empty_upstream_closes_all (fork_prs : pydict MirrorPR) (w : world) :
  ∃ closed,
    run (sync_prs_summary [] fork_prs) w
    = (Return {| s_created := 0; s_updated := 0; s_unchanged := 0;
                 s_closed := closed; s_failed := 0 |},
       close_commands (map snd fork_prs))
    ∧ (0 ≤ closed ≤ Z.of_nat (length fork_prs))%Z
    ∧ run (main [] fork_prs) w = (Return 0, close_commands (map snd fork_prs)).
Proof.
  destruct (close_stale_loop_spec ∅ fork_prs 0 w []) as (closed & Hclose & Hb & _).
  rewrite stale_prs_empty, length_map in *. simpl in Hclose.
  exists closed.
  assert (run (sync_prs_summary [] fork_prs) w
          = (Return {| s_created := 0; s_updated := 0; s_unchanged := 0;
                       s_closed := closed; s_failed := 0 |},
             close_commands (map snd fork_prs))) as Hsum.
  { unfold run, sync_prs_summary, close_stale_prs. simpl sorted_by_number.
    simpl process_prs. rewrite bind_eq. cbn [mret M_ret initial_state upstream_branches].
    by rewrite bind_eq, Hclose. }
  split; [exact Hsum|]. split; [lia|].
  unfold run, main, sync_prs. unfold run in Hsum. by rewrite !bind_eq, Hsum.
Qed.

(** ** Phases of a run *)

Lemma issues_close_stale_prs B (fork_prs : pydict MirrorPR) :
  issues (λ c, is_close c = true) (close_stale_prs B fork_prs).
Proof.
  intros w h. unfold close_stale_prs.
  destruct (close_stale_loop_spec B fork_prs 0 w h) as (closed & -> & _).
  eexists. split; [reflexivity|].
  apply Forall_forall. intros c (m & -> & _)%elem_of_map. done.
Qed.

(** X18. Every run issues its commands in two phases: first the commands
    of the main loop, none of which is a close, then the closes of the
    sweep and nothing else; no pull request is processed after the first
    close. *)
Theorem closes_come_last (upstream_prs : list UpstreamPR)
    (fork_prs : pydict MirrorPR) (w : world) :
  ∃ main_phase sweep_phase,
    (run (sync_prs_summary upstream_prs fork_prs) w).2 = main_phase ++ sweep_phase
    ∧ Forall (λ c, is_close c = false) main_phase
    ∧ Forall (λ c, is_close c = true) sweep_phase.
Proof.
  unfold run, sync_prs_summary. rewrite bind_eq.
  destruct (issues_process_prs_no_close upstream_prs fork_prs
              (sorted_by_number upstream_prs) initial_state w [])
    as (h1 & E1 & F1).
  destruct (process_prs _ _ _ _ w []) as [[st|e] h1']; simpl in E1; subst h1'.
  - rewrite bind_eq.
    destruct (issues_close_stale_prs (upstream_branches st) fork_prs w h1)
      as (h2 & E2 & F2).
    destruct (close_stale_prs _ _ w h1) as [[closed|e] h2']; simpl in E2; subst h2';
      by exists h1, h2.
  - exists h1, []. by rewrite app_nil_r.
Qed.

(** ** A null labels key in a run *)

Lemma process_prs_raises up fork_prs todo st w h :
  (∃ pr, pr ∈ todo ∧ labels pr = Null) →
  ∃ e h', process_prs up fork_prs todo st w h = (Raise e, h').
Proof.
  revert st h. induction todo as [|pr todo IH]; intros st h (bad & Hin & Hnull).
  - by apply elem_of_nil in Hin.
  - simpl process_prs. rewrite bind_eq.
    destruct (create_or_update_pr pr _ fork_prs w h) as [[r|e] h1] eqn:E; [|eauto].
    apply elem_of_cons in Hin as [->|Hin].
    + unfold create_or_update_pr, get_label_names in E. by rewrite Hnull in E.
    + apply IH. by exists bad.
Qed.

(** X19. When the [labels] key of an upstream pull request holds [null],
    the run ends with an exception: no summary is returned, the sweep does
    not run and no fork PR is closed. *)
Theorem null_labels_abort_run (upstream_prs : list UpstreamPR)
    (fork_prs : pydict MirrorPR) (w : world) :
  (∃ pr, pr ∈ upstream_prs ∧ labels pr = Null) →
  ∃ e h,
    run (main upstream_prs fork_prs) w = (Raise e, h)
    ∧ Forall (λ c, is_close c = false) h.
Proof.
  intros (bad & Hin & Hnull).
  destruct (process_prs_raises upstream_prs fork_prs
              (sorted_by_number upstream_prs) initial_state w [])
    as (e & h & Hloop).
  { exists bad. by rewrite (sorted_by_number_perm upstream_prs). }
  exists e, h. split.
  - unfold run, main, sync_prs, sync_prs_summary. by rewrite !bind_eq, Hloop.
  - destruct (issues_process_prs_no_close upstream_prs fork_prs
                (sorted_by_number upstream_prs) initial_state w [])
      as (h1 & E1 & F1).
    rewrite Hloop in E1. simpl in E1. by subst h.
Qed.

Lemma null_labels_abort_run_witness :
  ∃ e h,
    run (main [with_labels Sample.pr42 Null] (get_fork_prs [Sample.mirror_gone]))
        Sample.all_succeed = (Raise e, h)
    ∧ Forall (λ c, is_close c = false) h.
Proof.
  apply null_labels_abort_run.
  exists (with_labels Sample.pr42 Null). split; [apply list_elem_of_here | reflexivity].
Defined.

(** ** Forced commands *)

(** X20. Per-PR processing issues a fetch or a push with [--force] only
    for a pull request that has a mirror in the index, and only on the
    branch of that mirror. *)
Theorem force_only_on_mirrored_branch (pr : UpstreamPR) (branch_name : string)
    (fork_prs : pydict MirrorPR) (w : world) (h : history) :
  ∃ issued,
    (create_or_update_pr pr branch_name fork_prs w h).2 = h ++ issued
    ∧ Forall (λ c, is_forced c = true →
                   is_Some (dict_lookup branch_name fork_prs)
                   ∧ (c = fetch_forced pr branch_name ∨ c = push_forced branch_name))
             issued.
Proof.
  revert w h. change (issues (λ c, is_forced c = true →
    is_Some (dict_lookup branch_name fork_prs)
    ∧ (c = fetch_forced pr branch_name ∨ c = push_forced branch_name))
    (create_or_update_pr pr branch_name fork_prs)).
  unfold create_or_update_pr, get_label_names.
  issues_with ltac:(first
    [ apply issues_run_cmd; simpl; intros Hf;
      first [ discriminate Hf | split; [by eexists | by (left + right)] ]
    | apply issues_update_pr_metadata; simpl; intros Hf; discriminate Hf
    | apply issues_ensure_base_branch_exists; simpl; intros Hf; discriminate Hf ]).
Qed.

(** ** Stale detection *)

Lemma dict_elem_lookup {V} (k : string) (v : V) (d : pydict V) :
  NoDup (map fst d) → (k, v) ∈ d → dict_lookup k d = Some v.
Proof.
  induction d as [|[k0 v0] d IH]; cbn [dict_lookup map fst].
  - intros _ H. by apply elem_of_nil in H.
  - intros [Hk0 Hnd]%NoDup_cons [H|H]%elem_of_cons.
    + injection H as -> ->. by case_decide.
    + case_decide as Hk; [|by apply IH]. subst k0. destruct Hk0.
      apply elem_of_map. by exists (k, v).
Qed.

Lemma get_fork_prs_keys_NoDup (prs : list MirrorPR) :
  NoDup (map fst (get_fork_prs prs)).
Proof.
  unfold get_fork_prs. generalize (NoDup_nil_2 (A := string)).
  change (@nil string) with (map fst (@nil (string * MirrorPR))).
  generalize (@nil (string * MirrorPR)).
  induction prs as [|x l IH]; intros d Hd; [done|]. simpl.
  by apply IH, dict_set_NoDup.
Qed.

Lemma get_fork_prs_lookup (prs : list MirrorPR) h :
  dict_lookup h (get_fork_prs prs) = last (with_head h prs).
Proof.
  unfold get_fork_prs.
  assert (∀ l (d : pydict MirrorPR),
    dict_lookup h (fold_left (λ d pr, dict_set (m_headRefName pr) pr d) l d)
    = match last (with_head h l) with
      | Some m => Some m
      | None => dict_lookup h d
      end) as Hgen.
  { induction l as [|x l IH]; intros d; [done|]. simpl. rewrite IH.
    unfold with_head. rewrite filter_cons.
    destruct (decide (m_headRefName x = h)) as [<-|Hne].
    - rewrite last_cons, dict_lookup_set_eq. by destruct (last _).
    - by rewrite dict_lookup_set_ne. }
  rewrite Hgen. by destruct (last _).
Qed.

(** The fork PRs that the sweep selects: the last fork PR of each head
    branch that is not among the branches. *)
Lemma elem_of_stale_prs_index B (fork_list : list MirrorPR) m :
  m ∈ stale_prs B (get_fork_prs fork_list)
  ↔ (last (with_head (m_headRefName m) fork_list) = Some m
     ∧ m_headRefName m ∉ B).
Proof.
  rewrite elem_of_stale_prs. split.
  - intros (k & Hin & Hk).
    pose proof (get_fork_prs_elem _ _ _ Hin) as [-> _]. split; [|done].
    rewrite <- get_fork_prs_lookup.
    by apply dict_elem_lookup; [apply get_fork_prs_keys_NoDup|].
  - intros [Hlast Hk]. exists (m_headRefName m). split; [|done].
    apply dict_lookup_elem. by rewrite get_fork_prs_lookup.
Qed.

(** C4 fails on the code.  Two fork PRs are open on the head branch
    [old-branch] and upstream has no open pull request: the head branch of
    the first is not among the computed branch names, and yet it is not
    selected; the run closes the second only.  And in a run whose main loop
    ends with an exception (a [labels] key holding [null]), the head branch
    of the fork PR is not among the computed branch names and nothing is
    closed. *)
Lemma shadowed_fork_pr_not_selected :
  let fork_list := [Sample.mirror_gone; mirror_gone_again] in
  let aborting := [with_labels Sample.pr42 Null] in
  Sample.mirror_gone ∈ fork_list
  ∧ (m_headRefName Sample.mirror_gone ∉ branch_name_set [])
  ∧ (Sample.mirror_gone ∉ stale_prs (branch_name_set []) (get_fork_prs fork_list))
  ∧ run (sync_prs_summary [] (get_fork_prs fork_list)) Sample.all_succeed
    = (Return {| s_created := 0; s_updated := 0; s_unchanged := 0;
                 s_closed := 1; s_failed := 0 |}, [GhPrClose 10])
  ∧ (m_headRefName Sample.mirror_gone ∉ branch_name_set aborting)
  ∧ run (sync_prs_summary aborting (get_fork_prs [Sample.mirror_gone]))
        Sample.all_succeed
    = (Raise TypeError, []).
Proof.
  intros fork_list aborting.
  split; [apply list_elem_of_here|].
  split; [apply not_elem_of_empty|].
  split.
  { assert (stale_prs (branch_name_set []) (get_fork_prs fork_list)
            = [mirror_gone_again]) as -> by (vm_compute; reflexivity).
    intros H. apply list_elem_of_singleton in H. discriminate H. }
  split; [vm_compute; reflexivity|].
  split; [|vm_compute; reflexivity].
  intros H. vm_compute in H. discriminate H.
Qed.

(** C4, amended.  The sweep selects a fork PR exactly when it is the last
    fork PR of the fetched list with its head branch (the one the index
    keeps) and that head branch is not among the branch names computed
    from the upstream list.  When the main loop returns, in every world and
    so whatever the per-PR results were, the set handed to the sweep is
    that set of branch names, and the sweep issues exactly one close per
    selected fork PR.  When the main loop ends with an exception, the run
    ends with it and no close is issued. *)
Theorem stale_detection_on_index (upstream_prs : list UpstreamPR)
    (fork_list : list MirrorPR) (w : world) :
  let fork_prs := get_fork_prs fork_list in
  let names := branch_name_set upstream_prs in
  (∀ m, m ∈ stale_prs names fork_prs
        ↔ (last (with_head (m_headRefName m) fork_list) = Some m
           ∧ m_headRefName m ∉ names))
  ∧ (∀ st h,
       process_prs upstream_prs fork_prs (sorted_by_number upstream_prs)
                   initial_state w [] = (Return st, h) →
       upstream_branches st = names
       ∧ (∃ closed,
            close_stale_prs (upstream_branches st) fork_prs w h
            = (Return closed, h ++ close_commands (stale_prs names fork_prs))))
  ∧ (∀ e h,
       process_prs upstream_prs fork_prs (sorted_by_number upstream_prs)
                   initial_state w [] = (Raise e, h) →
       run (sync_prs_summary upstream_prs fork_prs) w = (Raise e, h)
       ∧ Forall (λ c, is_close c = false) h).
Proof.
  intros fork_prs names. split; [|split].
  - intros m. apply elem_of_stale_prs_index.
  - intros st h Hloop.
    pose proof (process_prs_branch_name_set _ _ _ _ _ Hloop) as Hset.
    split; [exact Hset|]. rewrite Hset. unfold close_stale_prs.
    destruct (close_stale_loop_spec names fork_prs 0 w h) as (closed & E & _).
    by exists closed.
  - intros e h Hloop. split.
    + unfold run, sync_prs_summary. by rewrite bind_eq, Hloop.
    + destruct (issues_process_prs_no_close upstream_prs fork_prs
                  (sorted_by_number upstream_prs) initial_state w [])
        as (h1 & E1 & F1).
      rewrite Hloop in E1. simpl in E1. by subst h.
Qed.

(** Scenario 5 next to a shadowed fork PR: upstream has [#42] only; the
    fork has its mirror and two fork PRs on [old-branch]; the last of the
    two is selected, the first and the mirror of [#42] are not. *)
Lemma stale_detection_on_index_witness :
  let fork_list := [Sample.mirror42; Sample.mirror_gone; mirror_gone_again] in
  let fork_prs := get_fork_prs fork_list in
  ∃ st h closed,
    process_prs [Sample.pr42] fork_prs (sorted_by_number [Sample.pr42])
                initial_state Sample.all_fail [] = (Return st, h)
    ∧ upstream_branches st = branch_name_set [Sample.pr42]
    ∧ close_stale_prs (upstream_branches st) fork_prs Sample.all_fail h
      = (Return closed,
         h ++ close_commands (stale_prs (branch_name_set [Sample.pr42]) fork_prs))
    ∧ mirror_gone_again ∈ stale_prs (branch_name_set [Sample.pr42]) fork_prs
    ∧ (Sample.mirror_gone ∉ stale_prs (branch_name_set [Sample.pr42]) fork_prs)
    ∧ (Sample.mirror42 ∉ stale_prs (branch_name_set [Sample.pr42]) fork_prs).
Proof.
  intros fork_list fork_prs.
  destruct (process_prs [Sample.pr42] fork_prs (sorted_by_number [Sample.pr42])
              initial_state Sample.all_fail []) as [r h] eqn:E.
  destruct r as [st|e]; [|by vm_compute in E].
  destruct (stale_detection_on_index [Sample.pr42] fork_list Sample.all_fail)
    as (Hsel & Hret & _).
  destruct (Hret st h E) as (Hset & closed & Hclose).
  exists st, h, closed. split; [reflexivity|]. split; [exact Hset|].
  split; [exact Hclose|]. split; [|split].
  - apply Hsel. split; [reflexivity|]. intros H. vm_compute in H. discriminate H.
  - intros H. apply Hsel in H as [H _]. vm_compute in H. discriminate H.
  - intros H. apply Hsel in H as [_ H]. apply H. vm_compute. reflexivity.
Defined.

(** ** Null body *)

(** The body comparison of per-PR processing, for a mirror that differs
    from the pull request in its body at most. *)
Lemma body_comparison (pr : UpstreamPR) (branch_name : string)
    (fork_prs : pydict MirrorPR) (m : MirrorPR) (w : world) (h : history) :
  dict_lookup branch_name fork_prs = Some m →
  same_tip pr m → same_title pr m → same_labels pr m → same_draft pr m →
  (create_or_update_pr pr branch_name fork_prs w h = (Return Unchanged, h)
   ↔ dict_get_default (m_body m) EmptyString = Some (expected_body pr))
  ∧ (dict_get_default (m_body m) EmptyString ≠ Some (expected_body pr) →
     ∃ issued,
       create_or_update_pr pr branch_name fork_prs w h
       = (Return Updated, h ++ edit_command pr m :: issued)).
Proof.
  intros Hlookup Htip Htitle [Hls Hlabels] Hdraft.
  destruct Hls as [S HS]. pose proof HS as HS'. rewrite <- Hlabels in HS'.
  apply label_set_Some in HS as (uls & Huls & ->).
  apply label_set_Some in HS' as (fls & Hfls & Hset).
  rewrite (create_or_update_pr_same_tip pr branch_name fork_prs m uls fls
             Hlookup Huls Hfls w h Htip).
  pose proof (changed_iff pr m uls fls Huls Hfls) as Hch.
  pose proof (update_edit pr m uls fls w h) as (ok & issued & Hupd).
  assert (metadata_differs pr m ↔ ¬ same_body pr m) as Hdiff.
  { unfold metadata_differs. split; [intros H Hb; by apply H|tauto]. }
  split.
  - split.
    + intros Hrun.
      destruct (decide (dict_get_default (m_body m) EmptyString
                        = Some (expected_body pr))) as [Hb|Hb]; [exact Hb|].
      apply Hdiff, Hch in Hb. rewrite Hb in Hrun. discriminate.
    + intros Hb.
      assert (metadata_test pr m uls fls = false) as ->; [|done].
      apply not_true_iff_false. intros E. apply Hch, Hdiff in E. by apply E.
  - intros Hb. apply Hdiff, Hch in Hb. rewrite Hb.
    exists issued. by rewrite Hupd.
Qed.

(** C10. For an upstream pull request whose [body] key is absent or
    [null], per-PR processing is that of the same pull request with the
    empty string as body, in every world and after every history, and the
    expected mirror body is the template of the empty body, which ends with
    the separator and nothing after it.  Processing compares the stored
    body of an existing mirror with that template: with tip, title, labels
    and draft flag in sync the result is [Unchanged] without a command
    exactly when the stored body is that template, and otherwise the title
    and body edit carrying that template is issued.  On the Create path,
    after the base branch step, the fetch and the push, the mirror is
    created with that template as body. *)
Theorem null_body_as_empty (pr : UpstreamPR) :
  body pr = Absent ∨ body pr = Null →
  expected_body pr = build_pr_body (number pr) (author_login pr) EmptyString
  ∧ expected_body pr
    = mirror_line (number pr) +:+ LF +:+ "**Original author:** "
        +:+ author_login pr +:+ " " +:+ LF +:+ LF +:+ separator
  ∧ (∀ (branch_name : string) (fork_prs : pydict MirrorPR),
      create_or_update_pr pr branch_name fork_prs
      = create_or_update_pr (with_body pr (Val EmptyString)) branch_name fork_prs)
  ∧ (∀ (branch_name : string) (fork_prs : pydict MirrorPR) (m : MirrorPR)
       (w : world) (h : history),
      dict_lookup branch_name fork_prs = Some m →
      same_tip pr m → same_title pr m → same_labels pr m → same_draft pr m →
      (create_or_update_pr pr branch_name fork_prs w h = (Return Unchanged, h)
       ↔ dict_get_default (m_body m) EmptyString = Some (empty_body_template pr))
      ∧ (dict_get_default (m_body m) EmptyString ≠ Some (empty_body_template pr) →
         ∃ issued,
           create_or_update_pr pr branch_name fork_prs w h
           = (Return Updated,
              h ++ GhPrEdit (m_number m) (title pr) (empty_body_template pr)
                :: issued)))
  ∧ (∀ (branch_name : string) (fork_prs : pydict MirrorPR) (uls : list Label)
       (w : world) (h h1 : history),
      dict_lookup branch_name fork_prs = None →
      dict_get_default (labels pr) [] = Some uls →
      ensure_base_branch_exists (baseRefName pr) w h = (Return true, h1) →
      let fetch := GitFetchPull (number pr) branch_name false in
      let push := GitPush branch_name false in
      let create :=
        GhPrCreate branch_name (baseRefName pr) (title pr) (empty_body_template pr)
          (match map name uls with
           | [] => None
           | _ => Some (String.concat "," (map name uls))
           end)
          (truthy (dict_get_default (isDraft pr) false)) in
      succeeds w h1 fetch = true → succeeds w (h1 ++ [fetch]) push = true →
      create_or_update_pr pr branch_name fork_prs w h
      = (Return (if succeeds w (h1 ++ [fetch; push]) create
                 then Created else Failed),
         h1 ++ [fetch; push; create])).
Proof.
  intros Hb.
  assert (or_empty (dict_get (body pr)) = EmptyString) as Hempty.
  { by destruct Hb as [-> | ->]. }
  assert (expected_body pr = empty_body_template pr) as Htemplate.
  { unfold expected_body, empty_body_template.
    rewrite Hempty, build_pr_body_template. by rewrite !append_empty_r. }
  split; [|split; [|split; [|split]]].
  - unfold expected_body. by rewrite Hempty.
  - exact Htemplate.
  - intros branch_name fork_prs. unfold create_or_update_pr.
    cbn [with_body number title baseRefName headRefName headRefOid body
         author_login labels isDraft].
    rewrite Hempty. reflexivity.
  - intros branch_name fork_prs m w h Hlookup Htip Htitle Hlabels Hdraft.
    rewrite <- Htemplate.
    apply (body_comparison pr branch_name fork_prs m w h); done.
  - intros branch_name fork_prs uls w h h1 Hlookup Huls Hbase fetch push create
      Hfetch Hpush.
    rewrite (create_path_eq pr branch_name fork_prs uls w h h1 true
               Hlookup Huls Hbase).
    cbv zeta. fold fetch push. rewrite Hfetch, Hpush.
    unfold create_command. rewrite Htemplate. reflexivity.
Qed.

(** [#44] has a [null] body and no mirror: in the world where every
    command succeeds it is created with the template that ends with the
    separator; and a mirror that stores this template is left unchanged. *)
Lemma null_body_as_empty_witness :
  create_or_update_pr Sample.pr44 "solo" [] Sample.all_succeed []
  = (Return Created,
     [GitLsRemoteHeads "main"; GitFetchBase "main"; GitPush "main" false]
     ++ [GitFetchPull 44 "solo" false; GitPush "solo" false;
         GhPrCreate "solo" "main" "Solo" (empty_body_template Sample.pr44)
           None true])
  ∧ create_or_update_pr Sample.pr44 "solo"
      [("solo", Sample.mirror 8 "solo" "777777" "Solo"
                  (empty_body_template Sample.pr44) [] true)]
      Sample.all_fail []
    = (Return Unchanged, []).
Proof.
  destruct (null_body_as_empty Sample.pr44) as (_ & _ & _ & Hcmp & Hcreate).
  { right. reflexivity. }
  split.
  - apply (Hcreate "solo" [] [] Sample.all_succeed [] _); reflexivity.
  - apply (Hcmp "solo" _ (Sample.mirror 8 "solo" "777777" "Solo"
                            (empty_body_template Sample.pr44) [] true)
             Sample.all_fail []); try reflexivity.
    split; [by eexists | reflexivity].
Defined.
